(** * Simple3dStitching: the call sequence of [MosMain] and what it does to
      the point-cloud containers.

    The example program registers two partial point clouds and stitches
    them.  It is a straight-line script over the imaging SDK: every
    statement of [MosMain], [CheckForRequiredMILFile] and
    [Alloc3dDisplayId] is embedded below as a computation in a small
    state-and-exit monad.  The state holds the point-cloud containers, the
    overlap box, the registration context and result, and the chronological
    list of SDK calls issued so far.  What the program cannot decide by
    itself (the file system, the display driver, the iterative registration)
    is read from an environment record. *)

From Stdlib Require Import ZArith String List Bool Lia.
From Stdlib Require Import PrimFloat Uint63.
Import ListNotations.

Set Warnings "-inexact-float".
Local Open Scope Z_scope.

(** ** Scalar types of the SDK headers *)

Definition MIL_INT := Z.
Definition MIL_ID := Z.
Definition MIL_DOUBLE := float.
Bind Scope float_scope with MIL_DOUBLE.

Definition M_NULL : MIL_ID := 0.

(** The C conversion of a (non-huge) integer to [double]. *)
Definition double_of_MIL_INT (n : MIL_INT) : MIL_DOUBLE :=
  if 0 <=? n then of_uint63 (Uint63.of_Z n)
  else (- of_uint63 (Uint63.of_Z (- n)))%float.

(** ** Point clouds as SDK containers *)

Record Point3d := mkPoint { px : MIL_DOUBLE; py : MIL_DOUBLE; pz : MIL_DOUBLE }.

(** A packed 8-bit colour, as built by the header macro of the same name. *)
Record Color := M_RGB888 { band_r : Z; band_g : Z; band_b : Z }.

Record RangeComponent := mkRange
  { range_SizeX : MIL_INT;
    range_SizeY : MIL_INT;
    range_points : list Point3d }.

Record ReflectanceComponent := mkReflectance
  { refl_SizeBand : MIL_INT;
    refl_SizeX : MIL_INT;
    refl_SizeY : MIL_INT;
    refl_pixels : list Color }.

Record Container := mkContainer
  { COMPONENT_RANGE : option RangeComponent;
    COMPONENT_REFLECTANCE : option ReflectanceComponent }.

Definition empty_container : Container := mkContainer None None.

Definition points_of (c : Container) : list Point3d :=
  match COMPONENT_RANGE c with
  | Some r => range_points r
  | None => []
  end.

Definition colors_of (c : Container) : list Color :=
  match COMPONENT_REFLECTANCE c with
  | Some r => refl_pixels r
  | None => []
  end.

(** The program's container variables: [MilPointCloud[NB_POINT_CLOUD+1]] and
    [MilCroppedPointCloud[NB_POINT_CLOUD]]. *)
Inductive BufId :=
| MilPointCloud (i : nat)
| MilCroppedPointCloud (i : nat).

Definition BufId_eqb (a b : BufId) : bool :=
  match a, b with
  | MilPointCloud i, MilPointCloud j => Nat.eqb i j
  | MilCroppedPointCloud i, MilCroppedPointCloud j => Nat.eqb i j
  | _, _ => false
  end.

(** [enum { eSource = 0, eTarget, eStitched }] *)
Definition eSource : nat := 0.
Definition eTarget : nat := 1.
Definition eStitched : nat := 2.

(** ** Constants of the program *)

Definition NB_POINT_CLOUD : nat := 2.

Definition EXTRACTION_BOX_SIZE_X : MIL_DOUBLE := 170.0%float.
Definition EXTRACTION_BOX_SIZE_Y : MIL_DOUBLE := 200.0%float.
Definition EXTRACTION_BOX_SIZE_Z : MIL_DOUBLE := (-66)%float.

Definition BOX_OVERLAP : MIL_DOUBLE := 0.20%float.
Definition BOX_USED_OVERLAP : MIL_DOUBLE := (0.9 * BOX_OVERLAP)%float.

Inductive Metric := M_POINT_TO_POINT | M_POINT_TO_PLANE.

Definition GRID_SIZE : MIL_DOUBLE := 1.0%float.
Definition DECIMATION_STEP : MIL_INT := 8.
Definition OVERLAP : MIL_DOUBLE := 95%float.
Definition MAX_ITERATIONS : MIL_INT := 100.
Definition RMS_ERROR_RELATIVE_THRESHOLD : MIL_DOUBLE := 0.5%float.
Definition ERROR_MINIMIZATION_METRIC : Metric := M_POINT_TO_POINT.

Definition NUM_BOX_POINTS : MIL_INT := 24.
Definition DRAW_BOX_MIN_X : MIL_DOUBLE := (- EXTRACTION_BOX_SIZE_X / 2)%float.
Definition DRAW_BOX_MIN_Y : MIL_DOUBLE :=
  (- EXTRACTION_BOX_SIZE_Y / 2 * BOX_USED_OVERLAP)%float.
Definition DRAW_BOX_MIN_Z : MIL_DOUBLE := (EXTRACTION_BOX_SIZE_Z / 2)%float.
Definition DRAW_BOX_MAX_X : MIL_DOUBLE := (EXTRACTION_BOX_SIZE_X / 2)%float.
Definition DRAW_BOX_MAX_Y : MIL_DOUBLE :=
  (EXTRACTION_BOX_SIZE_Y / 2 * BOX_USED_OVERLAP)%float.
Definition DRAW_BOX_MAX_Z : MIL_DOUBLE := (- EXTRACTION_BOX_SIZE_Z / 2)%float.

Definition WINDOWS_OFFSET_X : MIL_INT := 15.
Definition WINDOWS_OFFSET_Y : MIL_INT := 40.
Definition NB_DISPLAY : nat := 3.
Definition DISPLAY_NAMES (d : nat) : string :=
  match d with
  | O => "Reference partial point"%string
  | S O => "Target partial point"%string
  | _ => "Stitched point cloud"%string
  end.

Definition DISP_3D_SIZE_X : MIL_INT := 384.
Definition DISP_3D_SIZE_Y : MIL_INT := 384.

(** ** The overlap box *)

(** A box geometry as [M3dgeoBox] receives it with [M_CENTER_AND_DIMENSION]. *)
Record Box := mkBox { box_center : Point3d; box_size : Point3d }.

(** The interval of one axis.  A dimension may be negative (the program
    passes [EXTRACTION_BOX_SIZE_Z = -66]); the [DRAW_BOX_MIN_Z] and
    [DRAW_BOX_MAX_Z] constants of the program read such a dimension as the
    interval from [size/2] to [-size/2], that is, by its absolute value. *)
Definition axis_lo (c s : MIL_DOUBLE) : MIL_DOUBLE := (c - abs s / 2)%float.
Definition axis_hi (c s : MIL_DOUBLE) : MIL_DOUBLE := (c + abs s / 2)%float.

Definition in_axis (c s v : MIL_DOUBLE) : bool :=
  (axis_lo c s <=? v)%float && (v <=? axis_hi c s)%float.

(** Inside or on the boundary of the box. *)
Definition in_box (b : Box) (p : Point3d) : bool :=
  in_axis (px (box_center b)) (px (box_size b)) (px p) &&
  in_axis (py (box_center b)) (py (box_size b)) (py p) &&
  in_axis (pz (box_center b)) (pz (box_size b)) (pz p).

(** ** Registration context and result *)

Record Transform := mkTransform
  { rot_row1 : Point3d; rot_row2 : Point3d; rot_row3 : Point3d;
    translation : Point3d }.

Definition dot (a b : Point3d) : MIL_DOUBLE :=
  (px a * px b + py a * py b + pz a * pz b)%float.

Definition apply_transform (t : Transform) (p : Point3d) : Point3d :=
  mkPoint (dot (rot_row1 t) p + px (translation t))%float
          (dot (rot_row2 t) p + py (translation t))%float
          (dot (rot_row3 t) p + pz (translation t))%float.

(** The values [M3dregGetResult] can give for
    [M_STATUS_REGISTRATION_ELEMENT]; the last constructor stands for any
    value that reaches the [default] label of the program's [switch]. *)
Inductive RegStatus :=
| M_NOT_INITIALIZED
| M_NOT_ENOUGH_POINT_PAIRS
| M_MAX_ITERATIONS_REACHED
| M_RMS_ERROR_THRESHOLD_REACHED
| M_RMS_ERROR_RELATIVE_THRESHOLD_REACHED
| M_OTHER_STATUS (code : MIL_INT).

Record RegResult := mkResult
  { res_status : RegStatus;
    res_transform : Transform;
    res_RMS_ERROR : MIL_DOUBLE }.

(** A pairwise registration context.  A control the program has not set is
    [None] (the SDK default). *)
Record RegContext := mkContext
  { ctx_STEP_SIZE_X : option MIL_INT;
    ctx_STEP_SIZE_Y : option MIL_INT;
    ctx_SUBSAMPLE : option bool;
    ctx_MAX_ITERATIONS : option MIL_INT;
    ctx_RMS_ERROR_RELATIVE_THRESHOLD : option MIL_DOUBLE;
    ctx_ERROR_MINIMIZATION_METRIC : option Metric;
    ctx_OVERLAP : option MIL_DOUBLE;
    ctx_PREREGISTRATION : option Transform }.

Definition fresh_context : RegContext :=
  mkContext None None None None None None None None.

(** ** The SDK operations on clouds

    The SDK is closed source; its operations on containers are modelled
    here, the three algorithmic ones from the contracts the specification
    gives for them. *)

(** Keeps the elements of [r] that sit at the positions where [f] holds
    on [l]: the attributes of the points a crop keeps. *)
Fixpoint keep_by {A B : Type} (f : A -> bool) (l : list A) (r : list B)
  : list B :=
  match l, r with
  | a :: l', b :: r' =>
      if f a then b :: keep_by f l' r' else keep_by f l' r'
  | _, _ => []
  end.

(** Modelled from the spec: the body of [M3dimCrop], which is not in the
    repository.  Region Selector contract: the output contains exactly the
    points inside or on the boundary of the box; the result is a new,
    unorganized cloud, and the per-point attributes follow their points. *)
Definition Crop (c : Container) (b : Box) : Container :=
  let kept := filter (in_box b) (points_of c) in
  mkContainer
    (Some (mkRange (Z.of_nat (length kept)) 1 kept))
    (option_map
       (fun r => mkReflectance (refl_SizeBand r) (Z.of_nat (length kept)) 1
                   (keep_by (in_box b) (points_of c) (refl_pixels r)))
       (COMPONENT_REFLECTANCE c)).

(** Modelled from the spec: the count behind [M3dimStat] with
    [M_STAT_CONTEXT_NUMBER_OF_POINTS], which is not in the repository. *)
Definition NUMBER_OF_POINTS_VALID (c : Container) : MIL_INT :=
  Z.of_nat (length (points_of c)).

(** Modelled from the spec: the count behind [M3dmetStat] with
    [M_SIGNED_DISTANCE_TO_SURFACE], [M_LESS_OR_EQUAL], [0], which is not in
    the repository.  Statistics Probe contract [CountPointsInRegion]: a
    point has a signed distance of at most zero to the box when it is inside
    or on it. *)
Definition STAT_NUMBER (c : Container) (b : Box) : MIL_INT :=
  Z.of_nat (length (filter (in_box b) (points_of c))).

(** Whether a registration status comes with a transform. *)
Definition has_valid_transform (s : RegStatus) : bool :=
  match s with
  | M_NOT_INITIALIZED | M_NOT_ENOUGH_POINT_PAIRS => false
  | _ => true
  end.

(** Modelled from the spec: the body of [M3dregMerge], which is not in the
    repository.  Merger contract: the transform is applied to every point of
    the moving cloud, the result is the fixed points followed by the
    transformed moving points with their attributes, nothing is
    deduplicated, and a status without a valid transform makes it fail. *)
Definition Merge (r : RegResult) (fixed moving : Container)
  : option Container :=
  if has_valid_transform (res_status r) then
    let pts := points_of fixed
               ++ map (apply_transform (res_transform r)) (points_of moving) in
    Some (mkContainer
            (Some (mkRange (Z.of_nat (length pts)) 1 pts))
            (match COMPONENT_REFLECTANCE fixed, COMPONENT_REFLECTANCE moving with
             | Some a, Some b =>
                 Some (mkReflectance (refl_SizeBand a)
                         (Z.of_nat (length pts)) 1
                         (refl_pixels a ++ refl_pixels b))
             | _, _ => None
             end))
  else None.

(** [MbufFreeComponent] with [M_COMPONENT_REFLECTANCE]. *)
Definition free_reflectance (c : Container) : Container :=
  mkContainer (COMPONENT_RANGE c) None.

(** [MbufInquireContainer] on the range component. *)
Definition inquire_range_SizeX (c : Container) : MIL_INT :=
  match COMPONENT_RANGE c with Some r => range_SizeX r | None => 0 end.
Definition inquire_range_SizeY (c : Container) : MIL_INT :=
  match COMPONENT_RANGE c with Some r => range_SizeY r | None => 0 end.

(** [MbufAllocComponent] with [M_COMPONENT_REFLECTANCE]: a new image of
    [SizeX * SizeY] pixels; its content before [MbufClear] is taken as
    black. *)
Definition alloc_reflectance (SizeBand SizeX SizeY : MIL_INT) (c : Container)
  : Container :=
  mkContainer (COMPONENT_RANGE c)
    (Some (mkReflectance SizeBand SizeX SizeY
             (repeat (M_RGB888 0 0 0) (Z.to_nat (SizeX * SizeY))))).

(** [MbufClear] on the reflectance component: every pixel gets the colour. *)
Definition clear_reflectance (col : Color) (c : Container) : Container :=
  mkContainer (COMPONENT_RANGE c)
    (option_map
       (fun r => mkReflectance (refl_SizeBand r) (refl_SizeX r) (refl_SizeY r)
                   (map (fun _ => col) (refl_pixels r)))
       (COMPONENT_REFLECTANCE c)).

(** ** The SDK calls the program issues *)

Inductive PrintArg := P_int (n : MIL_INT) | P_double (x : MIL_DOUBLE).

Inductive DispControl :=
| M_WINDOW_INITIAL_POSITION_X (v : MIL_INT)
| M_WINDOW_INITIAL_POSITION_Y (v : MIL_INT)
| M_SIZE_X (v : MIL_INT)
| M_SIZE_Y (v : MIL_INT)
| M_TITLE (s : string)
| M_UPDATE (enable : bool).

Inductive GraControl :=
| M_COLOR_USE_LUT (v : bool)
| M_COLOR_COMPONENT_RANGE
| M_COLOR_COMPONENT_BAND (band : MIL_INT)
| M_COLOR_WHITE
| M_APPEARANCE_WIREFRAME.

Inductive SubsampleControl :=
| M_STEP_SIZE_X (n : MIL_INT)
| M_STEP_SIZE_Y (n : MIL_INT).

Inductive RegControl :=
| M_SUBSAMPLE (enable : bool)
| M_MAX_ITERATIONS (n : MIL_INT)
| M_RMS_ERROR_RELATIVE_THRESHOLD (x : MIL_DOUBLE)
| M_ERROR_MINIMIZATION_METRIC (m : Metric)
| M_OVERLAP (x : MIL_DOUBLE).

Inductive RegObject := RegistrationContext | RegistrationResult.

(** One constructor per SDK entry point the program uses, with the
    arguments that vary.  Graphic labels and allocation flags are not
    tracked; a graphic list is named by the display that owns it. *)
Inductive Event :=
| E_MosPrintf (text : string) (args : list PrintArg)
| E_MosGetch
| E_MappAlloc
| E_MappFileOperation (FileName : string) (FilePresent : bool)
| E_MbufAllocContainer (dst : BufId)
| E_MbufRestore (FileName : string) (dst : BufId)
| E_MappControl_ERROR (print_enable : bool)
| E_M3ddispAlloc (id : MIL_ID)
| E_M3ddispControl (disp : MIL_ID) (c : DispControl)
| E_M3ddispSetView (disp : MIL_ID)
| E_M3ddispSelect (disp : MIL_ID) (buf : BufId)
| E_M3ddispInquire (disp : MIL_ID)
| E_M3dgraControl (list : MIL_ID) (c : GraControl)
| E_M3dimAllocResult
| E_M3dimStat (buf : BufId)
| E_M3dimGetResult (value : MIL_INT)
| E_M3dgeoAlloc
| E_M3dgeoBox (b : Box)
| E_M3dgeoDraw3d (list : MIL_ID) (b : Box)
| E_M3dregAlloc
| E_M3dregAllocResult
| E_M3dregInquire
| E_M3dimControl (c : SubsampleControl)
| E_M3dregControl (c : RegControl)
| E_M3dimCrop (src dst : BufId) (b : Box)
| E_MappTimer_RESET
| E_MappTimer_READ
| E_M3dregCalculate (ctx : RegContext) (clouds : list BufId)
| E_M3dmetAllocResult
| E_M3dmetStat (buf : BufId) (b : Box)
| E_M3dmetGetResult (value : MIL_INT)
| E_M3dregSetLocation (t : option Transform)
| E_M3dregGetResult_STATUS (s : RegStatus)
| E_M3dregGetResult_RMS_ERROR (x : MIL_DOUBLE)
| E_MbufFreeComponent (buf : BufId)
| E_MbufInquireContainer (buf : BufId) (value : MIL_INT)
| E_MbufAllocComponent (buf : BufId) (SizeBand SizeX SizeY : MIL_INT)
| E_MbufClear (buf : BufId) (col : Color)
| E_M3dregMerge (r : option RegResult) (clouds : list BufId) (dst : BufId)
| E_M3dgraBox (list : MIL_ID) (corner1 corner2 : Point3d)
| E_M3dregFree (obj : RegObject)
| E_M3ddispFree (disp : MIL_ID).

(** ** The state of a run *)

Record World := mkWorld
  { w_calls : list Event;
    w_buf : BufId -> Container;
    w_MilBox : Box;
    w_context : RegContext;
    w_result : option RegResult;
    w_displays : nat }.

Definition origin : Point3d := mkPoint 0%float 0%float 0%float.

Definition initial_world : World :=
  mkWorld [] (fun _ => empty_container) (mkBox origin origin)
          fresh_context None O.

Definition add_call (e : Event) (w : World) : World :=
  mkWorld (w_calls w ++ [e]) (w_buf w) (w_MilBox w) (w_context w)
          (w_result w) (w_displays w).

Definition set_buf (k : BufId) (c : Container) (w : World) : World :=
  mkWorld (w_calls w)
          (fun k' => if BufId_eqb k k' then c else w_buf w k')
          (w_MilBox w) (w_context w) (w_result w) (w_displays w).

Definition set_MilBox (b : Box) (w : World) : World :=
  mkWorld (w_calls w) (w_buf w) b (w_context w) (w_result w) (w_displays w).

Definition set_context (c : RegContext) (w : World) : World :=
  mkWorld (w_calls w) (w_buf w) (w_MilBox w) c (w_result w) (w_displays w).

Definition set_result (r : option RegResult) (w : World) : World :=
  mkWorld (w_calls w) (w_buf w) (w_MilBox w) (w_context w) r (w_displays w).

Definition next_display (w : World) : World :=
  mkWorld (w_calls w) (w_buf w) (w_MilBox w) (w_context w) (w_result w)
          (S (w_displays w)).

(** How a registration control changes the context. *)
Definition apply_RegControl (c : RegControl) (x : RegContext) : RegContext :=
  match c with
  | M_SUBSAMPLE b =>
      mkContext (ctx_STEP_SIZE_X x) (ctx_STEP_SIZE_Y x) (Some b)
        (ctx_MAX_ITERATIONS x) (ctx_RMS_ERROR_RELATIVE_THRESHOLD x)
        (ctx_ERROR_MINIMIZATION_METRIC x) (ctx_OVERLAP x)
        (ctx_PREREGISTRATION x)
  | M_MAX_ITERATIONS n =>
      mkContext (ctx_STEP_SIZE_X x) (ctx_STEP_SIZE_Y x) (ctx_SUBSAMPLE x)
        (Some n) (ctx_RMS_ERROR_RELATIVE_THRESHOLD x)
        (ctx_ERROR_MINIMIZATION_METRIC x) (ctx_OVERLAP x)
        (ctx_PREREGISTRATION x)
  | M_RMS_ERROR_RELATIVE_THRESHOLD v =>
      mkContext (ctx_STEP_SIZE_X x) (ctx_STEP_SIZE_Y x) (ctx_SUBSAMPLE x)
        (ctx_MAX_ITERATIONS x) (Some v)
        (ctx_ERROR_MINIMIZATION_METRIC x) (ctx_OVERLAP x)
        (ctx_PREREGISTRATION x)
  | M_ERROR_MINIMIZATION_METRIC m =>
      mkContext (ctx_STEP_SIZE_X x) (ctx_STEP_SIZE_Y x) (ctx_SUBSAMPLE x)
        (ctx_MAX_ITERATIONS x) (ctx_RMS_ERROR_RELATIVE_THRESHOLD x)
        (Some m) (ctx_OVERLAP x) (ctx_PREREGISTRATION x)
  | M_OVERLAP v =>
      mkContext (ctx_STEP_SIZE_X x) (ctx_STEP_SIZE_Y x) (ctx_SUBSAMPLE x)
        (ctx_MAX_ITERATIONS x) (ctx_RMS_ERROR_RELATIVE_THRESHOLD x)
        (ctx_ERROR_MINIMIZATION_METRIC x) (Some v) (ctx_PREREGISTRATION x)
  end.

Definition apply_SubsampleControl (c : SubsampleControl) (x : RegContext)
  : RegContext :=
  match c with
  | M_STEP_SIZE_X n =>
      mkContext (Some n) (ctx_STEP_SIZE_Y x) (ctx_SUBSAMPLE x)
        (ctx_MAX_ITERATIONS x) (ctx_RMS_ERROR_RELATIVE_THRESHOLD x)
        (ctx_ERROR_MINIMIZATION_METRIC x) (ctx_OVERLAP x)
        (ctx_PREREGISTRATION x)
  | M_STEP_SIZE_Y n =>
      mkContext (ctx_STEP_SIZE_X x) (Some n) (ctx_SUBSAMPLE x)
        (ctx_MAX_ITERATIONS x) (ctx_RMS_ERROR_RELATIVE_THRESHOLD x)
        (ctx_ERROR_MINIMIZATION_METRIC x) (ctx_OVERLAP x)
        (ctx_PREREGISTRATION x)
  end.

Definition set_PREREGISTRATION (t : option Transform) (x : RegContext)
  : RegContext :=
  mkContext (ctx_STEP_SIZE_X x) (ctx_STEP_SIZE_Y x) (ctx_SUBSAMPLE x)
    (ctx_MAX_ITERATIONS x) (ctx_RMS_ERROR_RELATIVE_THRESHOLD x)
    (ctx_ERROR_MINIMIZATION_METRIC x) (ctx_OVERLAP x) t.

(** ** The monad: state, and the early end of the process by [exit] *)

Inductive Outcome (A : Type) :=
| Done (a : A)
| Exit (code : Z).
Arguments Done {A} a.
Arguments Exit {A} code.

Definition Mil (A : Type) : Type := World -> Outcome A * World.

Definition ret {A : Type} (a : A) : Mil A := fun w => (Done a, w).

Definition bind {A B : Type} (m : Mil A) (k : A -> Mil B) : Mil B :=
  fun w =>
    match m w with
    | (Done a, w') => k a w'
    | (Exit code, w') => (Exit code, w')
    end.

Definition exit {A : Type} (code : Z) : Mil A := fun w => (Exit code, w).

Definition call (e : Event) : Mil unit := fun w => (Done tt, add_call e w).

Definition update (f : World -> World) : Mil unit := fun w => (Done tt, f w).

Definition read {A : Type} (f : World -> A) : Mil A := fun w => (Done (f w), w).

Notation "x <- m ;; k" := (bind m (fun x => k))
  (at level 61, m at next level, right associativity).
Notation "m ;; k" := (bind m (fun _ => k))
  (at level 61, right associativity).

(** A counted [for] loop whose body yields no value. *)
Fixpoint for_each {A : Type} (l : list A) (body : A -> Mil unit) : Mil unit :=
  match l with
  | [] => ret tt
  | a :: l' => body a ;; for_each l' body
  end.

(** A counted [for] loop that fills an array, one element per round. *)
Fixpoint for_fill {A B : Type} (l : list A) (body : A -> Mil B)
  : Mil (list B) :=
  match l with
  | [] => ret []
  | a :: l' => b <- body a ;; bs <- for_fill l' body ;; ret (b :: bs)
  end.

(** ** What the run reads from outside *)

Record Env := mkEnv
  { (** the installation's image directory, a macro of the SDK header *)
    M_IMAGE_PATH : string;
    (** [MappFileOperation] with [M_FILE_EXISTS] *)
    FILE_EXISTS : string -> bool;
    (** the container [MbufRestore] builds from a file *)
    restored : string -> Container;
    (** the identifier the n-th [M3ddispAlloc] returns; [M_NULL] on failure *)
    display_driver : nat -> MIL_ID;
    (** the iterative registration behind [M3dregCalculate] *)
    registration : RegContext -> list Container -> RegResult;
    (** what [MappTimer] reads *)
    timer : MIL_DOUBLE }.

Section Program.

Variable env : Env.

Definition FILE_SOURCE_POINT_CLOUD (i : nat) : string :=
  match i with
  | O => M_IMAGE_PATH env ++ "/Simple3dStitching/StitchReference.ply"
  | _ => M_IMAGE_PATH env ++ "/Simple3dStitching/StitchTarget.ply"
  end%string.

(** *** The SDK entry points, as steps of the monad *)

Definition MosPrintf (text : string) : Mil unit := call (E_MosPrintf text []).
Definition MosPrintf_args (text : string) (args : list PrintArg) : Mil unit :=
  call (E_MosPrintf text args).
Definition MosGetch : Mil unit := call E_MosGetch.
Definition MappAlloc : Mil unit := call E_MappAlloc.

Definition MappFileOperation_FILE_EXISTS (FileName : string) : Mil bool :=
  call (E_MappFileOperation FileName (FILE_EXISTS env FileName)) ;;
  ret (FILE_EXISTS env FileName).

Definition MbufAllocContainer (dst : BufId) : Mil unit :=
  call (E_MbufAllocContainer dst) ;;
  update (set_buf dst empty_container).

Definition MbufRestore (FileName : string) (dst : BufId) : Mil unit :=
  call (E_MbufRestore FileName dst) ;;
  update (set_buf dst (restored env FileName)).

Definition MappControl_ERROR (print_enable : bool) : Mil unit :=
  call (E_MappControl_ERROR print_enable).

Definition M3ddispAlloc : Mil MIL_ID :=
  n <- read w_displays ;;
  call (E_M3ddispAlloc (display_driver env n)) ;;
  update next_display ;;
  ret (display_driver env n).

Definition M3ddispControl (disp : MIL_ID) (c : DispControl) : Mil unit :=
  call (E_M3ddispControl disp c).
Definition M3ddispSetView (disp : MIL_ID) : Mil unit :=
  call (E_M3ddispSetView disp).
Definition M3ddispSelect (disp : MIL_ID) (buf : BufId) : Mil unit :=
  call (E_M3ddispSelect disp buf).
Definition M3ddispInquire_GRAPHIC_LIST (disp : MIL_ID) : Mil MIL_ID :=
  call (E_M3ddispInquire disp) ;; ret disp.
Definition M3dgraControl (list : MIL_ID) (c : GraControl) : Mil unit :=
  call (E_M3dgraControl list c).
Definition M3ddispFree (disp : MIL_ID) : Mil unit :=
  call (E_M3ddispFree disp).

Definition M3dimAllocResult : Mil unit := call E_M3dimAllocResult.

(** The statistics result is represented by the number it holds. *)
Definition M3dimStat_NUMBER_OF_POINTS (buf : BufId) : Mil MIL_INT :=
  call (E_M3dimStat buf) ;;
  c <- read (fun w => w_buf w buf) ;;
  ret (NUMBER_OF_POINTS_VALID c).

Definition M3dimGetResult (ResultId : MIL_INT) : Mil MIL_INT :=
  call (E_M3dimGetResult ResultId) ;; ret ResultId.

Definition M3dgeoAlloc : Mil unit := call E_M3dgeoAlloc.

Definition M3dgeoBox_CENTER_AND_DIMENSION
  (cx cy cz sx sy sz : MIL_DOUBLE) : Mil unit :=
  call (E_M3dgeoBox (mkBox (mkPoint cx cy cz) (mkPoint sx sy sz))) ;;
  update (set_MilBox (mkBox (mkPoint cx cy cz) (mkPoint sx sy sz))).

Definition M3dgeoDraw3d (list : MIL_ID) : Mil unit :=
  b <- read w_MilBox ;;
  call (E_M3dgeoDraw3d list b).

Definition M3dgraBox_BOTH_CORNERS (list : MIL_ID)
  (x1 y1 z1 x2 y2 z2 : MIL_DOUBLE) : Mil unit :=
  call (E_M3dgraBox list (mkPoint x1 y1 z1) (mkPoint x2 y2 z2)).

Definition M3dregAlloc : Mil unit :=
  call E_M3dregAlloc ;; update (set_context fresh_context).
Definition M3dregAllocResult : Mil unit :=
  call E_M3dregAllocResult ;; update (set_result None).
Definition M3dregInquire_SUBSAMPLE_CONTEXT : Mil unit := call E_M3dregInquire.

Definition M3dimControl (c : SubsampleControl) : Mil unit :=
  call (E_M3dimControl c) ;;
  update (fun w => set_context (apply_SubsampleControl c (w_context w)) w).

Definition M3dregControl (c : RegControl) : Mil unit :=
  call (E_M3dregControl c) ;;
  update (fun w => set_context (apply_RegControl c (w_context w)) w).

Definition M3dimCrop (src dst : BufId) : Mil unit :=
  b <- read w_MilBox ;;
  call (E_M3dimCrop src dst b) ;;
  update (fun w => set_buf dst (Crop (w_buf w src) b) w).

Definition MappTimer_RESET : Mil unit := call E_MappTimer_RESET.
Definition MappTimer_READ : Mil MIL_DOUBLE :=
  call E_MappTimer_READ ;; ret (timer env).

Definition M3dregCalculate (clouds : list BufId) : Mil unit :=
  ctx <- read w_context ;;
  call (E_M3dregCalculate ctx clouds) ;;
  update (fun w =>
            set_result (Some (registration env ctx (map (w_buf w) clouds))) w).

Definition M3dmetAllocResult : Mil unit := call E_M3dmetAllocResult.

Definition M3dmetStat_NUMBER (buf : BufId) : Mil MIL_INT :=
  b <- read w_MilBox ;;
  call (E_M3dmetStat buf b) ;;
  c <- read (fun w => w_buf w buf) ;;
  ret (STAT_NUMBER c b).

Definition M3dmetGetResult (MilStatResult : MIL_INT) : Mil MIL_INT :=
  call (E_M3dmetGetResult MilStatResult) ;; ret MilStatResult.

(** The location is taken from the result object as it is at the call. *)
Definition M3dregSetLocation : Mil unit :=
  r <- read w_result ;;
  call (E_M3dregSetLocation (option_map res_transform r)) ;;
  update (fun w =>
            set_context
              (set_PREREGISTRATION (option_map res_transform r) (w_context w))
              w).

Definition status_of (r : option RegResult) : RegStatus :=
  match r with
  | Some x => res_status x
  | None => M_NOT_INITIALIZED
  end.

Definition M3dregGetResult_STATUS : Mil RegStatus :=
  r <- read w_result ;;
  call (E_M3dregGetResult_STATUS (status_of r)) ;;
  ret (status_of r).

Definition M3dregGetResult_RMS_ERROR : Mil MIL_DOUBLE :=
  r <- read w_result ;;
  call (E_M3dregGetResult_RMS_ERROR
          (match r with Some x => res_RMS_ERROR x | None => 0%float end)) ;;
  ret (match r with Some x => res_RMS_ERROR x | None => 0%float end).

Definition MbufFreeComponent_REFLECTANCE (buf : BufId) : Mil unit :=
  call (E_MbufFreeComponent buf) ;;
  update (fun w => set_buf buf (free_reflectance (w_buf w buf)) w).

Definition MbufInquireContainer_RANGE
  (buf : BufId) (what : Container -> MIL_INT) : Mil MIL_INT :=
  c <- read (fun w => w_buf w buf) ;;
  call (E_MbufInquireContainer buf (what c)) ;;
  ret (what c).

(** The new component is named by the container that holds it. *)
Definition MbufAllocComponent_REFLECTANCE
  (buf : BufId) (SizeBand SizeX SizeY : MIL_INT) : Mil BufId :=
  call (E_MbufAllocComponent buf SizeBand SizeX SizeY) ;;
  update (fun w =>
            set_buf buf (alloc_reflectance SizeBand SizeX SizeY (w_buf w buf)) w) ;;
  ret buf.

Definition MbufClear (MilReflectance : BufId) (col : Color) : Mil unit :=
  call (E_MbufClear MilReflectance col) ;;
  update (fun w =>
            set_buf MilReflectance
              (clear_reflectance col (w_buf w MilReflectance)) w).

(** The merge of the first two containers of the array into [dst]; a merge
    the SDK refuses leaves [dst] as it was. *)
Definition merged (r : option RegResult) (cs : list Container)
  : option Container :=
  match r, cs with
  | Some x, [fixed; moving] => Merge x fixed moving
  | _, _ => None
  end.

Definition M3dregMerge (clouds : list BufId) (dst : BufId) : Mil unit :=
  r <- read w_result ;;
  call (E_M3dregMerge r clouds dst) ;;
  update (fun w =>
            set_buf dst
              (match merged r (map (w_buf w) clouds) with
               | Some c => c
               | None => w_buf w dst
               end) w).

Definition M3dregFree (obj : RegObject) : Mil unit := call (E_M3dregFree obj).

(** *** The program *)

Definition PrintHeader : Mil unit :=
  MosPrintf "[EXAMPLE NAME]\n" ;;
  MosPrintf "Simple3dStiching\n\n" ;;
  MosPrintf "[SYNOPSIS]\n" ;;
  MosPrintf "This example demonstrates how to use the 3D surface registration \n" ;;
  MosPrintf "to register two partial point clouds of a 3D object and \n" ;;
  MosPrintf "stitch them into a single complete point cloud.\n" ;;
  MosPrintf "\n" ;;
  MosPrintf "[MODULES USED]\n" ;;
  MosPrintf "Modules used: 3D Registration, Buffer, 3D Image Processing,\n3D Display, 3D Graphics, 3D Geometry and 3D Metrology.\n\n".

Definition CheckForRequiredMILFile (FileName : string) : Mil bool :=
  FilePresent <- MappFileOperation_FILE_EXISTS FileName ;;
  (if negb FilePresent then
     MosPrintf "\nThe footage needed to run this example is missing. You need \nto obtain and apply a separate specific update to have it.\n\n" ;;
     MosPrintf "Press <Enter> to end.\n\n" ;;
     MosGetch
   else ret tt) ;;
  ret FilePresent.

(** Allocates a 3D display and returns its identifier. *)
Definition Alloc3dDisplayId : Mil MIL_ID :=
  MappControl_ERROR false ;;
  MilDisplay3D <- M3ddispAlloc ;;
  MappControl_ERROR true ;;
  (if MilDisplay3D =? M_NULL then
     MosPrintf "\nThe current system does not support the 3D display.\nPress any key to exit.\n" ;;
     MosGetch ;;
     exit 0
   else ret tt) ;;
  ret MilDisplay3D.

(** The arrays of container identifiers the program passes to the SDK. *)
Definition first_of (arr : nat -> BufId) (n : nat) : list BufId :=
  map arr (seq 0 n).

Definition MosMain : Mil Z :=
  PrintHeader ;;
  MappAlloc ;;
  (* Check for required example files. *)
  present <- CheckForRequiredMILFile (FILE_SOURCE_POINT_CLOUD 0) ;;
  if negb present then ret (-1) else
  (* Allocate 3D point cloud containers. *)
  MbufAllocContainer (MilPointCloud eStitched) ;;
  for_each (seq 0 NB_POINT_CLOUD)
    (fun i => MbufAllocContainer (MilCroppedPointCloud i)) ;;
  (* Restore the unorganized point clouds. *)
  MosPrintf "The reference and target point clouds are being restored..." ;;
  MbufRestore (FILE_SOURCE_POINT_CLOUD 0) (MilPointCloud eSource) ;;
  MbufRestore (FILE_SOURCE_POINT_CLOUD 1) (MilPointCloud eTarget) ;;
  MosPrintf "done.\n\n" ;;
  (* Initialize displays. *)
  MilDisplay <- for_fill (seq 0 NB_DISPLAY)
    (fun d =>
       id <- Alloc3dDisplayId ;;
       M3ddispControl id
         (M_WINDOW_INITIAL_POSITION_X
            (Z.of_nat d * (WINDOWS_OFFSET_X + DISP_3D_SIZE_X))) ;;
       M3ddispControl id (M_SIZE_X DISP_3D_SIZE_X) ;;
       M3ddispControl id (M_SIZE_Y DISP_3D_SIZE_Y) ;;
       M3ddispControl id (M_TITLE (DISPLAY_NAMES d)) ;;
       M3ddispSetView id ;;
       ret id) ;;
  (* Re-position the stitched cloud's display window. *)
  M3ddispControl (nth eStitched MilDisplay M_NULL)
    (M_WINDOW_INITIAL_POSITION_X
       (Z.quot WINDOWS_OFFSET_X 2 + Z.quot DISP_3D_SIZE_X 2)) ;;
  M3ddispControl (nth eStitched MilDisplay M_NULL)
    (M_WINDOW_INITIAL_POSITION_Y (WINDOWS_OFFSET_Y + DISP_3D_SIZE_Y)) ;;
  for_each (seq 0 NB_POINT_CLOUD)
    (fun p =>
       M3ddispSelect (nth p MilDisplay M_NULL) (MilPointCloud p) ;;
       MilGraphicList <- M3ddispInquire_GRAPHIC_LIST (nth p MilDisplay M_NULL) ;;
       M3dgraControl MilGraphicList (M_COLOR_USE_LUT true) ;;
       M3dgraControl MilGraphicList M_COLOR_COMPONENT_RANGE ;;
       M3dgraControl MilGraphicList (M_COLOR_COMPONENT_BAND 2)) ;;
  (* Get the total number of points of the reference point cloud. *)
  M3dimAllocResult ;;
  ResultId <- M3dimStat_NUMBER_OF_POINTS (MilPointCloud eSource) ;;
  SourceTotalNbPoints <- M3dimGetResult ResultId ;;
  (* Define the overlap box. *)
  M3dgeoAlloc ;;
  M3dgeoBox_CENTER_AND_DIMENSION 0.0 0.0 0.0
    EXTRACTION_BOX_SIZE_X
    (EXTRACTION_BOX_SIZE_Y * BOX_USED_OVERLAP)
    EXTRACTION_BOX_SIZE_Z ;;
  (* Draw the overlap boxes. *)
  for_each (seq 0 NB_POINT_CLOUD)
    (fun i =>
       MilGraphicList <- M3ddispInquire_GRAPHIC_LIST (nth i MilDisplay M_NULL) ;;
       M3dgeoDraw3d MilGraphicList ;;
       M3dgraControl MilGraphicList M_COLOR_WHITE ;;
       M3dgraControl MilGraphicList M_APPEARANCE_WIREFRAME) ;;
  MosPrintf "The object's reference and target, are displayed using pseudo colors.\nA white box is displayed to show the expected common overlap region\nfor both partial point clouds.\n\n" ;;
  MosPrintf "Press <Enter> to perform the registration.\n" ;;
  MosGetch ;;
  (* 3D registration. *)
  MosPrintf "\tProcessing." ;;
  M3dregAlloc ;;
  M3dregAllocResult ;;
  M3dregInquire_SUBSAMPLE_CONTEXT ;;
  M3dimControl (M_STEP_SIZE_X DECIMATION_STEP) ;;
  M3dimControl (M_STEP_SIZE_Y DECIMATION_STEP) ;;
  M3dregControl (M_SUBSAMPLE true) ;;
  M3dregControl (M_MAX_ITERATIONS MAX_ITERATIONS) ;;
  M3dregControl (M_RMS_ERROR_RELATIVE_THRESHOLD RMS_ERROR_RELATIVE_THRESHOLD) ;;
  M3dregControl (M_ERROR_MINIMIZATION_METRIC ERROR_MINIMIZATION_METRIC) ;;
  (* Set the box to the expected overlap region. *)
  for_each (seq 0 NB_POINT_CLOUD)
    (fun p =>
       M3dimCrop (MilPointCloud p) (MilCroppedPointCloud p) ;;
       MosPrintf ".") ;;
  MappTimer_RESET ;;
  (* Pre-registration with a given overlap. *)
  M3dregControl (M_OVERLAP OVERLAP) ;;
  M3dregCalculate (first_of MilCroppedPointCloud NB_POINT_CLOUD) ;;
  MosPrintf "." ;;
  (* MilPreregistration = MilRegistrationResult: the same result object. *)
  M3dgeoBox_CENTER_AND_DIMENSION 0.0 0.0 0.0
    EXTRACTION_BOX_SIZE_X
    (EXTRACTION_BOX_SIZE_Y * BOX_OVERLAP)
    EXTRACTION_BOX_SIZE_Z ;;
  (* Get the number of points of the source point cloud in the expected
     overlap region. *)
  M3dmetAllocResult ;;
  MilStatResult <- M3dmetStat_NUMBER (MilPointCloud eSource) ;;
  SourceOverlapNbOfPoints <- M3dmetGetResult MilStatResult ;;
  (* Set the box to the expected overlap region. *)
  for_each (seq 0 NB_POINT_CLOUD)
    (fun p =>
       M3dimCrop (MilPointCloud p) (MilCroppedPointCloud p) ;;
       MosPrintf ".") ;;
  (* Set the full model overlap based on the expected overlap between the
     two point clouds. *)
  let FullModelOverlap :=
    (double_of_MIL_INT SourceOverlapNbOfPoints
     / double_of_MIL_INT SourceTotalNbPoints * OVERLAP)%float in
  M3dregControl (M_OVERLAP FullModelOverlap) ;;
  (* Set the pre-registration matrix. *)
  M3dregSetLocation ;;
  (* Use the full point clouds. *)
  MosPrintf "." ;;
  M3dregCalculate (first_of MilCroppedPointCloud NB_POINT_CLOUD) ;;
  MosPrintf "." ;;
  ComputationTime <- MappTimer_READ ;;
  MosPrintf "done\n\n" ;;
  MosPrintf "The 3D stitching between the two partial point clouds has been performed with \nthe help of the points within the expected common overlap regions.\n\n" ;;
  RegistrationStatus <- M3dregGetResult_STATUS ;;
  (* Interpret the result status. *)
  match RegistrationStatus with
  | M_NOT_INITIALIZED =>
      MosPrintf "Registration failed: the registration result is not initialized.\n\n"
  | M_NOT_ENOUGH_POINT_PAIRS =>
      MosPrintf "Registration failed: point clouds are not overlapping.\n\n"
  | M_MAX_ITERATIONS_REACHED =>
      MosPrintf_args
        "Registration reached the maximum number of iterations allowed (%d)\nin %.2f ms. Resulting fixture may or may not be valid.\n\n"
        [P_int MAX_ITERATIONS; P_double (ComputationTime * 1000)%float]
  | M_RMS_ERROR_THRESHOLD_REACHED
  | M_RMS_ERROR_RELATIVE_THRESHOLD_REACHED =>
      RegistrationRmsError <- M3dregGetResult_RMS_ERROR ;;
      MosPrintf_args
        "The registration of the two partial point clouds\nsucceeded in %.2f ms with a final RMS error of %f mm.\n\n"
        [P_double (ComputationTime * 1000.0)%float;
         P_double RegistrationRmsError]
  | M_OTHER_STATUS _ =>
      MosPrintf "Unknown registration status.\n\n"
  end ;;
  (* Stitching: add color to the two clouds. *)
  for_each (seq 0 NB_POINT_CLOUD)
    (fun i =>
       M3ddispControl (nth i MilDisplay M_NULL) (M_UPDATE false) ;;
       MbufFreeComponent_REFLECTANCE (MilPointCloud i) ;;
       SizeX <- MbufInquireContainer_RANGE (MilPointCloud i) inquire_range_SizeX ;;
       SizeY <- MbufInquireContainer_RANGE (MilPointCloud i) inquire_range_SizeY ;;
       MilReflectance <-
         MbufAllocComponent_REFLECTANCE (MilPointCloud i) 3 SizeX SizeY ;;
       MbufClear MilReflectance
         (if Nat.eqb i 0 then M_RGB888 135 165 235 else M_RGB888 75 125 215) ;;
       M3ddispControl (nth i MilDisplay M_NULL) (M_UPDATE true)) ;;
  M3dregMerge (first_of MilPointCloud 2) (MilPointCloud eStitched) ;;
  (* Display stitched point cloud. *)
  M3ddispSelect (nth eStitched MilDisplay M_NULL) (MilPointCloud eStitched) ;;
  (* Draw a 3D box in the stitched point cloud to show the original overlap
     regions. *)
  MilGraphicList <-
    M3ddispInquire_GRAPHIC_LIST (nth eStitched MilDisplay M_NULL) ;;
  M3dgraBox_BOTH_CORNERS MilGraphicList
    (-0.5 * EXTRACTION_BOX_SIZE_X)
    (-0.5 * EXTRACTION_BOX_SIZE_Y * BOX_USED_OVERLAP)
    (0.5 * EXTRACTION_BOX_SIZE_Z)
    (0.5 * EXTRACTION_BOX_SIZE_X)
    (0.5 * EXTRACTION_BOX_SIZE_Y * BOX_USED_OVERLAP)
    (-0.5 * EXTRACTION_BOX_SIZE_Z) ;;
  M3dgraControl MilGraphicList M_COLOR_WHITE ;;
  M3dgraControl MilGraphicList M_APPEARANCE_WIREFRAME ;;
  MosPrintf "The two point clouds have been stitched into a single point cloud.\nThe resulting stitched point cloud is displayed.\nA white rectangular box show the transformed overlap region.\n\n" ;;
  MosPrintf "Press <Enter> to end.\n" ;;
  MosGetch ;;
  (* Free MIL objects. *)
  M3dregFree RegistrationContext ;;
  M3dregFree RegistrationResult ;;
  for_each (seq 0 NB_DISPLAY)
    (fun d =>
       if negb (nth d MilDisplay M_NULL =? 0) then
         M3ddispFree (nth d MilDisplay M_NULL)
       else ret tt) ;;
  ret 0.

End Program.

(** The run of the process: its outcome and the final state. *)
Definition run (env : Env) : Outcome Z * World := MosMain env initial_world.

(** The exit status of the process: the value [MosMain] returns, or the
    argument of [exit]. *)
Definition exit_status (env : Env) : Z :=
  match fst (run env) with
  | Done code => code
  | Exit code => code
  end.

Definition calls (env : Env) : list Event := w_calls (snd (run env)).

Definition final_buf (env : Env) (k : BufId) : Container :=
  w_buf (snd (run env)) k.

(** ** Reading the list of calls *)

Definition is_crop (e : Event) : bool :=
  match e with E_M3dimCrop _ _ _ => true | _ => false end.

Definition is_calculate (e : Event) : bool :=
  match e with E_M3dregCalculate _ _ => true | _ => false end.

Definition is_merge (e : Event) : bool :=
  match e with E_M3dregMerge _ _ _ => true | _ => false end.

Definition is_status_query (e : Event) : bool :=
  match e with E_M3dregGetResult_STATUS _ => true | _ => false end.

Definition is_overlap_control (e : Event) : bool :=
  match e with E_M3dregControl (M_OVERLAP _) => true | _ => false end.

Definition is_set_location (e : Event) : bool :=
  match e with E_M3dregSetLocation _ => true | _ => false end.

(** The calls that count points. *)
Definition is_count_query (e : Event) : bool :=
  match e with
  | E_M3dimStat _ | E_M3dimGetResult _
  | E_M3dmetStat _ _ | E_M3dmetGetResult _ => true
  | _ => false
  end.

(** Cropping, registration or merging. *)
Definition is_processing_call (e : Event) : bool :=
  is_crop e || is_calculate e || is_merge e.

(** Any call that creates, loads, measures or transforms a point cloud. *)
Definition is_pipeline_call (e : Event) : bool :=
  match e with
  | E_MbufAllocContainer _ | E_MbufRestore _ _ | E_M3dimStat _
  | E_M3dimCrop _ _ _ | E_M3dregCalculate _ _ | E_M3dmetStat _ _
  | E_M3dregMerge _ _ _ => true
  | _ => false
  end.

(** A display allocation that returned [M_NULL]. *)
Definition display_alloc_failed (tr : list Event) : bool :=
  existsb (fun e => match e with
                    | E_M3ddispAlloc id => id =? M_NULL
                    | _ => false
                    end) tr.

(** The index of the first call that satisfies [p]. *)
Fixpoint position (p : Event -> bool) (tr : list Event) : option nat :=
  match tr with
  | [] => None
  | e :: tr' =>
      if p e then Some O
      else match position p tr' with
           | Some n => Some (S n)
           | None => None
           end
  end.

(** The calls issued before the first one that satisfies [p]. *)
Fixpoint before_first (p : Event -> bool) (tr : list Event) : list Event :=
  match tr with
  | [] => []
  | e :: tr' => if p e then [] else e :: before_first p tr'
  end.

Definition lastn {A : Type} (n : nat) (l : list A) : list A :=
  skipn (length l - n) l.

(** The boxes the crops were given, in order. *)
Definition crop_boxes (tr : list Event) : list Box :=
  flat_map (fun e => match e with E_M3dimCrop _ _ b => [b] | _ => [] end) tr.

(** The values given to the [M_OVERLAP] control, in order. *)
Definition overlap_controls (tr : list Event) : list MIL_DOUBLE :=
  flat_map (fun e => match e with
                     | E_M3dregControl (M_OVERLAP x) => [x]
                     | _ => []
                     end) tr.

Definition reg_controls (tr : list Event) : list RegControl :=
  flat_map (fun e => match e with E_M3dregControl c => [c] | _ => [] end) tr.

Definition subsample_controls (tr : list Event) : list SubsampleControl :=
  flat_map (fun e => match e with E_M3dimControl c => [c] | _ => [] end) tr.

(** The registrations: the context at the call and the array passed. *)
Definition calculate_calls (tr : list Event) : list (RegContext * list BufId) :=
  flat_map (fun e => match e with
                     | E_M3dregCalculate c l => [(c, l)]
                     | _ => []
                     end) tr.

(** The crops, the overlap controls and the registrations, in order. *)
Definition stage_view (tr : list Event) : list Event :=
  filter (fun e => is_crop e || is_overlap_control e || is_calculate e) tr.

(** ** The values a complete run works with *)

(** The run gets past the file check and the three display allocations. *)
Definition inputs_ok (env : Env) : bool :=
  FILE_EXISTS env (FILE_SOURCE_POINT_CLOUD env 0)
  && negb (display_driver env 0 =? 0)
  && negb (display_driver env 1 =? 0)
  && negb (display_driver env 2 =? 0).

Definition source_cloud (env : Env) : Container :=
  restored env (FILE_SOURCE_POINT_CLOUD env 0).

Definition target_cloud (env : Env) : Container :=
  restored env (FILE_SOURCE_POINT_CLOUD env 1).

(** The box of lines 174-177 and the box of lines 237-241. *)
Definition first_box : Box :=
  mkBox origin
    (mkPoint EXTRACTION_BOX_SIZE_X
             (EXTRACTION_BOX_SIZE_Y * BOX_USED_OVERLAP)
             EXTRACTION_BOX_SIZE_Z).

Definition second_box : Box :=
  mkBox origin
    (mkPoint EXTRACTION_BOX_SIZE_X
             (EXTRACTION_BOX_SIZE_Y * BOX_OVERLAP)
             EXTRACTION_BOX_SIZE_Z).

(** The context after lines 208-214. *)
Definition configured_context : RegContext :=
  mkContext (Some DECIMATION_STEP) (Some DECIMATION_STEP) (Some true)
    (Some MAX_ITERATIONS) (Some RMS_ERROR_RELATIVE_THRESHOLD)
    (Some ERROR_MINIMIZATION_METRIC) None None.

Definition preregistration_context : RegContext :=
  apply_RegControl (M_OVERLAP OVERLAP) configured_context.

Definition preregistration_result (env : Env) : RegResult :=
  registration env preregistration_context
    [Crop (source_cloud env) first_box; Crop (target_cloud env) first_box].

(** The value of line 258. *)
Definition FullModelOverlap (env : Env) : MIL_DOUBLE :=
  (double_of_MIL_INT (STAT_NUMBER (source_cloud env) second_box)
   / double_of_MIL_INT (NUMBER_OF_POINTS_VALID (source_cloud env))
   * OVERLAP)%float.

Definition refinement_context (env : Env) : RegContext :=
  set_PREREGISTRATION
    (Some (res_transform (preregistration_result env)))
    (apply_RegControl (M_OVERLAP (FullModelOverlap env))
       preregistration_context).

Definition refinement_result (env : Env) : RegResult :=
  registration env (refinement_context env)
    [Crop (source_cloud env) second_box; Crop (target_cloud env) second_box].

Definition final_result (env : Env) : option RegResult :=
  w_result (snd (run env)).

(** The colours of lines 320. *)
Definition reference_color : Color := M_RGB888 135 165 235.
Definition target_color : Color := M_RGB888 75 125 215.

(** A cloud as it stands at the merge: its own range component, and a
    reflectance image of the size of the range, filled with one colour. *)
Definition uniform_reflectance (c : Container) (col : Color)
  : ReflectanceComponent :=
  mkReflectance 3 (inquire_range_SizeX c) (inquire_range_SizeY c)
    (repeat col (Z.to_nat (inquire_range_SizeX c * inquire_range_SizeY c))).

Definition recolored (c : Container) (col : Color) : Container :=
  mkContainer (COMPONENT_RANGE c) (Some (uniform_reflectance c col)).

(** The calls of one round of the loop of lines 312-322. *)
Definition recolor_calls (disp : MIL_ID) (i : nat) (c : Container)
  (col : Color) : list Event :=
  [ E_M3ddispControl disp (M_UPDATE false);
    E_MbufFreeComponent (MilPointCloud i);
    E_MbufInquireContainer (MilPointCloud i) (inquire_range_SizeX c);
    E_MbufInquireContainer (MilPointCloud i) (inquire_range_SizeY c);
    E_MbufAllocComponent (MilPointCloud i) 3
      (inquire_range_SizeX c) (inquire_range_SizeY c);
    E_MbufClear (MilPointCloud i) col;
    E_M3ddispControl disp (M_UPDATE true) ].

(** The message of [Alloc3dDisplayId]. *)
Definition no_3d_display_message : string :=
  "\nThe current system does not support the 3D display.\nPress any key to exit.\n".

(** ** Sample runs *)

Definition sample_reference : Container :=
  mkContainer
    (Some (mkRange 4 1
             [mkPoint 0 0 0; mkPoint 1 18 2; mkPoint 1 19 2; mkPoint 0 25 0]))
    (Some (mkReflectance 1 4 1
             [M_RGB888 10 10 10; M_RGB888 20 20 20;
              M_RGB888 30 30 30; M_RGB888 40 40 40])).

Definition sample_target : Container :=
  mkContainer
    (Some (mkRange 2 1 [mkPoint 0 1 0; mkPoint 1 (-19) 2]))
    None.

Definition identity_transform : Transform :=
  mkTransform (mkPoint 1 0 0) (mkPoint 0 1 0) (mkPoint 0 0 1) origin.

Definition sample_result (st : RegStatus) : RegResult :=
  mkResult st identity_transform 0.25.

(** Both files present, three displays, a registration that ends with the
    status [st]. *)
Definition sample_env (st : RegStatus) : Env :=
  mkEnv "images"
    (fun _ => true)
    (fun f =>
       if String.eqb f "images/Simple3dStitching/StitchReference.ply"
       then sample_reference else sample_target)
    (fun n => 100 + Z.of_nat n)
    (fun _ _ => sample_result st)
    0.002.

(** The reference file is missing. *)
Definition missing_reference_env : Env :=
  mkEnv "images" (fun _ => false) (fun _ => empty_container)
    (fun n => 100 + Z.of_nat n)
    (fun _ _ => sample_result M_NOT_INITIALIZED)
    0.002.

(** The second display cannot be allocated. *)
Definition no_display_env : Env :=
  mkEnv "images" (fun _ => true)
    (fun _ => sample_target)
    (fun n => if Nat.eqb n 1 then M_NULL else 100 + Z.of_nat n)
    (fun _ _ => sample_result M_RMS_ERROR_RELATIVE_THRESHOLD_REACHED)
    0.002.

(** A registration that reports, as its status, how many points it was
    given. *)
Definition counting_env : Env :=
  mkEnv "images" (fun _ => true)
    (fun f =>
       if String.eqb f "images/Simple3dStitching/StitchReference.ply"
       then sample_reference else sample_target)
    (fun n => 100 + Z.of_nat n)
    (fun _ cs =>
       mkResult (M_OTHER_STATUS (Z.of_nat (length (flat_map points_of cs))))
                identity_transform 0)
    0.002.

(** The reference file holds a cloud without points; the registration then
    finds no pairs. *)
Definition empty_reference_env : Env :=
  mkEnv "images" (fun _ => true)
    (fun f =>
       if String.eqb f "images/Simple3dStitching/StitchReference.ply"
       then mkContainer (Some (mkRange 0 1 [])) None else sample_target)
    (fun n => 100 + Z.of_nat n)
    (fun _ _ => sample_result M_NOT_ENOUGH_POINT_PAIRS)
    0.002.

(** ** More readers of the list of calls *)

Definition is_getch (e : Event) : bool :=
  match e with E_MosGetch => true | _ => false end.

Definition is_print (e : Event) : bool :=
  match e with E_MosPrintf _ _ => true | _ => false end.

Definition is_file_query (e : Event) : bool :=
  match e with E_MappFileOperation _ _ => true | _ => false end.

Definition is_restore (e : Event) : bool :=
  match e with E_MbufRestore _ _ => true | _ => false end.

Definition is_rms_query (e : Event) : bool :=
  match e with E_M3dregGetResult_RMS_ERROR _ => true | _ => false end.

Definition is_timer_reset (e : Event) : bool :=
  match e with E_MappTimer_RESET => true | _ => false end.

Definition is_timer_read (e : Event) : bool :=
  match e with E_MappTimer_READ => true | _ => false end.

Definition is_update_control (e : Event) : bool :=
  match e with E_M3ddispControl _ (M_UPDATE _) => true | _ => false end.

(** A box drawn in a display. *)
Definition is_box_drawing (e : Event) : bool :=
  match e with
  | E_M3dgeoDraw3d _ _ | E_M3dgraBox _ _ _ => true
  | _ => false
  end.

(** The identifiers returned by [M3ddispAlloc], in order. *)
Definition display_allocs (tr : list Event) : list MIL_ID :=
  flat_map (fun e => match e with E_M3ddispAlloc id => [id] | _ => [] end) tr.

(** The identifiers given to [M3ddispFree], in order. *)
Definition display_frees (tr : list Event) : list MIL_ID :=
  flat_map (fun e => match e with E_M3ddispFree id => [id] | _ => [] end) tr.

(** The objects given to [M3dregFree], in order. *)
Definition registration_frees (tr : list Event) : list RegObject :=
  flat_map (fun e => match e with E_M3dregFree o => [o] | _ => [] end) tr.

(** The calls issued after the first one that satisfies [p]. *)
Fixpoint after_first (p : Event -> bool) (tr : list Event) : list Event :=
  match tr with
  | [] => []
  | e :: tr' => if p e then tr' else after_first p tr'
  end.

(** The calls after the first [p] and before the next [q]. *)
Definition calls_between (p q : Event -> bool) (tr : list Event)
  : list Event :=
  before_first q (after_first p tr).

(** Every [M3ddispAlloc] stands between a call that turns the printing of
    SDK errors off and one that turns it on again, and the switch is
    touched nowhere else. *)
Fixpoint allocs_are_bracketed (tr : list Event) : bool :=
  match tr with
  | [] => true
  | E_MappControl_ERROR false :: tr1 =>
      match tr1 with
      | E_M3ddispAlloc _ :: tr2 =>
          match tr2 with
          | E_MappControl_ERROR true :: tr3 => allocs_are_bracketed tr3
          | _ => false
          end
      | _ => false
      end
  | E_MappControl_ERROR true :: _ => false
  | E_M3ddispAlloc _ :: _ => false
  | _ :: tr1 => allocs_are_bracketed tr1
  end.

(** *** Which SDK objects are alive *)

Record Liveness := mkLiveness
  { live_buffers : list BufId;
    box_defined : bool;
    context_live : bool;
    result_live : bool;
    result_computed : bool }.

Definition nothing_live : Liveness := mkLiveness [] false false false false.

Definition buffer_live (s : Liveness) (b : BufId) : bool :=
  existsb (BufId_eqb b) (live_buffers s).

Definition when_ok (ok : bool) (s : Liveness) : option Liveness :=
  if ok then Some s else None.

(** The effect of one call on the objects alive; [None] when the call uses
    a container that was neither allocated nor restored, the box before it
    was defined, a registration object before its allocation or after its
    release, or a registration result before any registration. *)
Definition use_step (s : Liveness) (e : Event) : option Liveness :=
  match e with
  | E_MbufAllocContainer b | E_MbufRestore _ b =>
      Some (mkLiveness (b :: live_buffers s) (box_defined s)
              (context_live s) (result_live s) (result_computed s))
  | E_M3dgeoBox _ =>
      Some (mkLiveness (live_buffers s) true
              (context_live s) (result_live s) (result_computed s))
  | E_M3dgeoDraw3d _ _ => when_ok (box_defined s) s
  | E_M3dimStat b => when_ok (buffer_live s b) s
  | E_M3dmetStat b _ => when_ok (buffer_live s b && box_defined s) s
  | E_M3dimCrop src dst _ =>
      when_ok (buffer_live s src && buffer_live s dst && box_defined s) s
  | E_M3dregAlloc =>
      when_ok (negb (context_live s))
        (mkLiveness (live_buffers s) (box_defined s) true
           (result_live s) (result_computed s))
  | E_M3dregAllocResult =>
      when_ok (negb (result_live s))
        (mkLiveness (live_buffers s) (box_defined s) (context_live s)
           true false)
  | E_M3dregInquire | E_M3dimControl _ | E_M3dregControl _ =>
      when_ok (context_live s) s
  | E_M3dregCalculate _ bs =>
      when_ok (context_live s && result_live s
               && forallb (buffer_live s) bs)
        (mkLiveness (live_buffers s) (box_defined s) (context_live s)
           (result_live s) true)
  | E_M3dregSetLocation _ =>
      when_ok (context_live s && result_live s && result_computed s) s
  | E_M3dregGetResult_STATUS _ | E_M3dregGetResult_RMS_ERROR _ =>
      when_ok (result_live s && result_computed s) s
  | E_M3dregMerge _ bs dst =>
      when_ok (result_live s && result_computed s
               && forallb (buffer_live s) bs && buffer_live s dst) s
  | E_MbufFreeComponent b | E_MbufInquireContainer b _
  | E_MbufAllocComponent b _ _ _ | E_MbufClear b _
  | E_M3ddispSelect _ b =>
      when_ok (buffer_live s b) s
  | E_M3dregFree RegistrationContext =>
      when_ok (context_live s)
        (mkLiveness (live_buffers s) (box_defined s) false
           (result_live s) (result_computed s))
  | E_M3dregFree RegistrationResult =>
      when_ok (result_live s)
        (mkLiveness (live_buffers s) (box_defined s) (context_live s)
           false false)
  | _ => Some s
  end.

Fixpoint liveness_after (s : Liveness) (tr : list Event) : option Liveness :=
  match tr with
  | [] => Some s
  | e :: tr' =>
      match use_step s e with
      | Some s' => liveness_after s' tr'
      | None => None
      end
  end.

(** *** Clouds whose sizes fit their points *)

(** The range component is there, its sizes are not negative and their
    product is the number of points. *)
Definition range_fits (c : Container) : bool :=
  match COMPONENT_RANGE c with
  | Some r =>
      (0 <=? range_SizeX r) && (0 <=? range_SizeY r)
      && (range_SizeX r * range_SizeY r =? Z.of_nat (length (range_points r)))
  | None => false
  end.

(** The messages of the file check. *)
Definition missing_footage_message : string :=
  "\nThe footage needed to run this example is missing. You need \nto obtain and apply a separate specific update to have it.\n\n".

(** What the calls of [l] add to a state. *)
Definition add_calls (l : list Event) (w : World) : World :=
  fold_left (fun w' e => add_call e w') l w.

(** The corners of a box: all lower bounds, all upper bounds. *)
Definition box_low_corner (b : Box) : Point3d :=
  mkPoint (axis_lo (px (box_center b)) (px (box_size b)))
          (axis_lo (py (box_center b)) (py (box_size b)))
          (axis_lo (pz (box_center b)) (pz (box_size b))).

Definition box_high_corner (b : Box) : Point3d :=
  mkPoint (axis_hi (px (box_center b)) (px (box_size b)))
          (axis_hi (py (box_center b)) (py (box_size b)))
          (axis_hi (pz (box_center b)) (pz (box_size b))).

(** The registration ended with one of the two RMS statuses. *)
Definition is_rms_status (s : RegStatus) : bool :=
  match s with
  | M_RMS_ERROR_THRESHOLD_REACHED
  | M_RMS_ERROR_RELATIVE_THRESHOLD_REACHED => true
  | _ => false
  end.

(** The message printed after the merge. *)
Definition stitched_message : string :=
  "The two point clouds have been stitched into a single point cloud.\nThe resulting stitched point cloud is displayed.\nA white rectangular box show the transformed overlap region.\n\n".

(** * Properties *)

(** ** Lists *)

Section ListFacts.

Context {A B : Type}.
Variable f : A -> bool.

Lemma filter_twice (l : list A) : filter f (filter f l) = filter f l.
Proof.
  induction l as [|a l IH]; simpl; [reflexivity|].
  destruct (f a) eqn:E; simpl; [rewrite E|]; now rewrite IH.
Qed.

Lemma keep_by_nil_r (l : list A) : keep_by f l (@nil B) = [].
Proof. now destruct l. Qed.

(** The attributes kept by a crop are stable under a second crop. *)
Lemma keep_by_twice (l : list A) (r : list B) :
  keep_by f (filter f l) (keep_by f l r) = keep_by f l r.
Proof.
  revert r; induction l as [|a l IH]; intros r; simpl; [reflexivity|].
  destruct r as [|b r].
  - destruct (f a); apply keep_by_nil_r.
  - destruct (f a) eqn:E; simpl; [rewrite E|]; now rewrite IH.
Qed.

End ListFacts.

Lemma map_const_repeat {A B : Type} (b : B) (a : A) (n : nat) :
  map (fun _ => b) (repeat a n) = repeat b n.
Proof. induction n; simpl; congruence. Qed.

(** ** The box *)

Lemma in_axis_bounds (c s v : MIL_DOUBLE) :
  in_axis c s v = true <->
  (axis_lo c s <=? v)%float = true /\ (v <=? axis_hi c s)%float = true.
Proof. unfold in_axis; apply andb_true_iff. Qed.

Lemma in_box_bounds (b : Box) (p : Point3d) :
  in_box b p = true <->
  in_axis (px (box_center b)) (px (box_size b)) (px p) = true /\
  in_axis (py (box_center b)) (py (box_size b)) (py p) = true /\
  in_axis (pz (box_center b)) (pz (box_size b)) (pz p) = true.
Proof. unfold in_box; rewrite !andb_true_iff; tauto. Qed.

(** The corners the program draws are the bounds of the first box. *)
Example first_box_bounds :
  axis_lo 0 (px (box_size first_box)) = DRAW_BOX_MIN_X /\
  axis_hi 0 (px (box_size first_box)) = DRAW_BOX_MAX_X /\
  axis_lo 0 (py (box_size first_box)) = DRAW_BOX_MIN_Y /\
  axis_hi 0 (py (box_size first_box)) = DRAW_BOX_MAX_Y /\
  axis_lo 0 (pz (box_size first_box)) = DRAW_BOX_MIN_Z /\
  axis_hi 0 (pz (box_size first_box)) = DRAW_BOX_MAX_Z.
Proof. repeat split; vm_compute; reflexivity. Qed.

(** A point on a face and a point on a corner of the box are kept, a point
    just outside is not. *)
Example in_box_boundary :
  in_box second_box (mkPoint 0 20 0) = true /\
  in_box second_box (mkPoint 85 (-20) 33) = true /\
  in_box second_box (mkPoint 0 20.000001 0) = false.
Proof. repeat split; vm_compute; reflexivity. Qed.

(** ** Crop *)

Lemma points_of_Crop (C : Container) (B : Box) :
  points_of (Crop C B) = filter (in_box B) (points_of C).
Proof. reflexivity. Qed.

(** C8. For every cloud and box, the crop holds exactly the points of the
    cloud that are inside or on the boundary of the box, in their order,
    and cropping a second time with the same box changes nothing. *)
Theorem Crop_exact_and_idempotent (C : Container) (B : Box) :
  points_of (Crop C B) = filter (in_box B) (points_of C) /\
  (forall p, In p (points_of (Crop C B)) <->
             In p (points_of C) /\
             in_axis (px (box_center B)) (px (box_size B)) (px p) = true /\
             in_axis (py (box_center B)) (py (box_size B)) (py p) = true /\
             in_axis (pz (box_center B)) (pz (box_size B)) (pz p) = true) /\
  Crop (Crop C B) B = Crop C B.
Proof.
  split; [reflexivity|split].
  - intros p. rewrite points_of_Crop, filter_In, in_box_bounds. tauto.
  - unfold Crop at 1 3. rewrite points_of_Crop, filter_twice.
    f_equal.
    unfold Crop; simpl.
    destruct (COMPONENT_REFLECTANCE C) as [r|]; simpl; [|reflexivity].
    now rewrite keep_by_twice.
Qed.

(** ** Merge *)

Lemma Merge_points (r : RegResult) (fixed moving out : Container) :
  Merge r fixed moving = Some out ->
  points_of out =
    points_of fixed ++ map (apply_transform (res_transform r)) (points_of moving).
Proof.
  unfold Merge. destruct (has_valid_transform (res_status r)); [|discriminate].
  intros E; injection E as <-. reflexivity.
Qed.

Lemma Merge_fails (r : RegResult) (fixed moving : Container) :
  has_valid_transform (res_status r) = false -> Merge r fixed moving = None.
Proof. unfold Merge; now intros ->. Qed.

(** C7. For a result with a valid transform the merge yields a cloud; its
    points are the points of the fixed cloud followed by the transformed
    points of the moving cloud, none dropped, so that it has as many points
    as the fixed and the moving cloud together. *)
Theorem Merge_point_count (r : RegResult) (fixed moving : Container) :
  has_valid_transform (res_status r) = true ->
  exists out,
    Merge r fixed moving = Some out /\
    points_of out
    = points_of fixed
      ++ map (apply_transform (res_transform r)) (points_of moving) /\
    length (points_of out)
    = (length (points_of fixed) + length (points_of moving))%nat.
Proof.
  intros Hv.
  destruct (Merge r fixed moving) as [out|] eqn:E.
  - exists out. split; [reflexivity|].
    rewrite (Merge_points _ _ _ _ E), length_app, length_map.
    split; reflexivity.
  - unfold Merge in E. rewrite Hv in E. discriminate.
Qed.

Lemma Merge_point_count_witness :
  exists out,
    Merge (sample_result M_MAX_ITERATIONS_REACHED) sample_reference sample_target
    = Some out /\
    points_of out
    = points_of sample_reference
      ++ map (apply_transform
                (res_transform (sample_result M_MAX_ITERATIONS_REACHED)))
             (points_of sample_target) /\
    length (points_of out)
    = (length (points_of sample_reference)
       + length (points_of sample_target))%nat.
Proof.
  apply (Merge_point_count (sample_result M_MAX_ITERATIONS_REACHED)
           sample_reference sample_target).
  reflexivity.
Defined.

(** Two coincident points, one in each cloud, are both in the merge. *)
Example Merge_keeps_coincident_points :
  option_map points_of
    (Merge (sample_result M_RMS_ERROR_THRESHOLD_REACHED)
       (mkContainer (Some (mkRange 1 1 [mkPoint 1 2 3])) None)
       (mkContainer (Some (mkRange 1 1 [mkPoint 1 2 3])) None))
  = Some [mkPoint 1 2 3; mkPoint 1 2 3].
Proof. vm_compute. reflexivity. Qed.

(** ** Symbolic runs

    [mil_run env] names the run of [env], evaluates it as far as the
    answers of the environment that are among the hypotheses allow, splits
    on the registration status when the [switch] is reached, and then
    evaluates what the goal reads from the run. *)

Ltac mil_step Hr :=
  cbv beta iota zeta delta
    [run MosMain PrintHeader CheckForRequiredMILFile Alloc3dDisplayId first_of
     bind ret call update read exit for_each for_fill
     add_call set_buf set_MilBox set_context set_result next_display
     w_calls w_buf w_MilBox w_context w_result w_displays initial_world
     MosPrintf MosPrintf_args MosGetch MappAlloc MappFileOperation_FILE_EXISTS
     MbufAllocContainer MbufRestore MappControl_ERROR M3ddispAlloc
     M3ddispControl M3ddispSetView M3ddispSelect M3ddispInquire_GRAPHIC_LIST
     M3dgraControl M3ddispFree M3dimAllocResult M3dimStat_NUMBER_OF_POINTS
     M3dimGetResult M3dgeoAlloc M3dgeoBox_CENTER_AND_DIMENSION M3dgeoDraw3d
     M3dgraBox_BOTH_CORNERS M3dregAlloc M3dregAllocResult
     M3dregInquire_SUBSAMPLE_CONTEXT M3dimControl M3dregControl M3dimCrop
     MappTimer_RESET MappTimer_READ M3dregCalculate M3dmetAllocResult
     M3dmetStat_NUMBER M3dmetGetResult M3dregSetLocation status_of
     M3dregGetResult_STATUS M3dregGetResult_RMS_ERROR
     MbufFreeComponent_REFLECTANCE MbufInquireContainer_RANGE
     MbufAllocComponent_REFLECTANCE MbufClear M3dregMerge M3dregFree
     NB_POINT_CLOUD NB_DISPLAY eSource eTarget eStitched M_NULL
     seq map app nth negb BufId_eqb Nat.eqb option_map
     apply_RegControl apply_SubsampleControl set_PREREGISTRATION fresh_context
     ctx_STEP_SIZE_X ctx_STEP_SIZE_Y ctx_SUBSAMPLE ctx_MAX_ITERATIONS
     ctx_RMS_ERROR_RELATIVE_THRESHOLD ctx_ERROR_MINIMIZATION_METRIC
     ctx_OVERLAP ctx_PREREGISTRATION] in Hr.

(** One answer of the environment that the run is waiting for. *)
Ltac mil_answer Hr :=
  match goal with
  | H : ?asked = ?answer |- _ =>
      match asked with
      | FILE_EXISTS _ _ => idtac
      | (display_driver _ _ =? 0) => idtac
      end;
      match type of Hr with context [asked] => idtac end;
      let q := fresh "q" in
      let Hq := fresh "Hq" in
      set (q := asked) in Hr;
      assert (Hq : q = answer) by exact H;
      clearbody q; subst q
  end.

Ltac mil_eval Hr := mil_step Hr; repeat (mil_answer Hr; mil_step Hr).

(** The six branches of the [switch] on the registration status. *)
Ltac mil_switch Hr :=
  match type of Hr with
  | context [match ?s with M_NOT_INITIALIZED => _ | _ => _ end] =>
      destruct s eqn:?
  end; mil_eval Hr.

Ltac mil_read :=
  cbv beta iota zeta delta
    [fst snd w_calls w_buf w_MilBox w_context w_result w_displays
     eSource eTarget eStitched M_NULL BufId_eqb Nat.eqb
     is_crop is_calculate is_merge is_status_query is_overlap_control
     is_set_location is_count_query is_processing_call is_pipeline_call display_alloc_failed position
     before_first lastn crop_boxes overlap_controls reg_controls
     subsample_controls calculate_calls stage_view
     is_getch is_print is_file_query is_restore is_rms_query is_timer_reset
     is_timer_read is_update_control is_box_drawing display_allocs
     display_frees registration_frees after_first calls_between
     allocs_are_bracketed liveness_after use_step when_ok buffer_live
     nothing_live live_buffers box_defined context_live result_live
     result_computed forallb
     existsb filter flat_map map app orb andb negb skipn length Nat.sub] in *.

Ltac mil_run env :=
  unfold calls, exit_status, final_buf, final_result in *;
  let r := fresh "r" in
  let Hr := fresh "Hr" in
  remember (run env) as r eqn:Hr in *;
  mil_eval Hr; try mil_switch Hr;
  subst r; mil_read.

Lemma inputs_ok_answers (env : Env) :
  inputs_ok env = true ->
  FILE_EXISTS env (FILE_SOURCE_POINT_CLOUD env 0) = true /\
  (display_driver env 0 =? 0) = false /\
  (display_driver env 1 =? 0) = false /\
  (display_driver env 2 =? 0) = false.
Proof.
  unfold inputs_ok. rewrite !andb_true_iff, !negb_true_iff. tauto.
Qed.

(** A run with good inputs, evaluated up to its end. *)
Ltac mil_complete env H :=
  destruct (inputs_ok_answers _ H) as (?Hf & ?Hd0 & ?Hd1 & ?Hd2);
  mil_run env.

(** After [mil_complete]: the status that was read is the status of the
    second registration. *)
Ltac mil_status env :=
  match goal with
  | E : res_status ?r = _ |- _ =>
      change r with (refinement_result env) in *; rewrite ?E
  end.

(** Every run, whatever the environment answers: the missing file, each of
    the three displays failing in turn, and the complete run with its six
    statuses. *)
Ltac mil_every_run env :=
  destruct (FILE_EXISTS env (FILE_SOURCE_POINT_CLOUD env 0)) eqn:?Hf;
  [ destruct (display_driver env 0 =? 0) eqn:?Hd0;
    [ | destruct (display_driver env 1 =? 0) eqn:?Hd1;
        [ | destruct (display_driver env 2 =? 0) eqn:?Hd2 ] ] | ];
  mil_run env.

Ltac mil_ids :=
  repeat match goal with
         | H : (display_driver _ _ =? 0) = _ |- _ => rewrite H
         end.

(** ** Early ends *)

(** C9. In every run in which one of the display allocations returns
    [M_NULL], the process ends by [exit(0)]; its last two calls are the
    print of the message and the wait for a key, and no crop, registration
    or merge has been called. *)
Theorem display_failure_exits_with_zero (env : Env) :
  display_alloc_failed (calls env) = true ->
  fst (run env) = Exit 0 /\
  lastn 2 (calls env) = [E_MosPrintf no_3d_display_message []; E_MosGetch] /\
  existsb is_processing_call (calls env) = false.
Proof.
  intros Hfail.
  destruct (FILE_EXISTS env (FILE_SOURCE_POINT_CLOUD env 0)) eqn:Hf;
    [|mil_run env; discriminate Hfail].
  destruct (display_driver env 0 =? 0) eqn:Hd0;
    [mil_run env; repeat split; reflexivity|].
  destruct (display_driver env 1 =? 0) eqn:Hd1;
    [mil_run env; repeat split; reflexivity|].
  destruct (display_driver env 2 =? 0) eqn:Hd2;
    [mil_run env; repeat split; reflexivity|].
  mil_run env; rewrite Hd0, Hd1, Hd2 in Hfail; discriminate Hfail.
Qed.

Lemma display_failure_exits_with_zero_witness :
  fst (run no_display_env) = Exit 0 /\
  lastn 2 (calls no_display_env)
  = [E_MosPrintf no_3d_display_message []; E_MosGetch] /\
  existsb is_processing_call (calls no_display_env) = false.
Proof.
  apply (display_failure_exits_with_zero no_display_env).
  vm_compute. reflexivity.
Defined.

(** Counterexample to C2. The registration of this run ends with "not
    enough point pairs", and the process still returns 0. *)
Lemma failed_alignment_returns_zero :
  status_of (final_result (sample_env M_NOT_ENOUGH_POINT_PAIRS))
  = M_NOT_ENOUGH_POINT_PAIRS /\
  fst (run (sample_env M_NOT_ENOUGH_POINT_PAIRS)) = Done 0 /\
  exit_status (sample_env M_NOT_ENOUGH_POINT_PAIRS) = 0.
Proof. repeat split; vm_compute; reflexivity. Qed.

(** C2, amended. Leaving aside the runs in which only the second input file
    is missing: the exit status is -1 when the reference file is missing
    and 0 otherwise, whatever the registration status and whether or not the
    displays could be allocated; and a call that creates, loads, measures or
    transforms a point cloud is issued exactly when the reference file is
    present. *)
Theorem exit_status_follows_reference_file (env : Env) :
  FILE_EXISTS env (FILE_SOURCE_POINT_CLOUD env 0) = false \/
  FILE_EXISTS env (FILE_SOURCE_POINT_CLOUD env 1) = true ->
  exit_status env
  = (if FILE_EXISTS env (FILE_SOURCE_POINT_CLOUD env 0) then 0 else -1) /\
  existsb is_pipeline_call (calls env)
  = FILE_EXISTS env (FILE_SOURCE_POINT_CLOUD env 0).
Proof.
  intros _.
  destruct (FILE_EXISTS env (FILE_SOURCE_POINT_CLOUD env 0)) eqn:Hf;
    [|mil_run env; split; reflexivity].
  destruct (display_driver env 0 =? 0) eqn:Hd0;
    [mil_run env; split; reflexivity|].
  destruct (display_driver env 1 =? 0) eqn:Hd1;
    [mil_run env; split; reflexivity|].
  destruct (display_driver env 2 =? 0) eqn:Hd2;
    [mil_run env; split; reflexivity|].
  mil_run env; split; reflexivity.
Qed.

Lemma exit_status_follows_reference_file_witness :
  exit_status missing_reference_env = -1 /\
  existsb is_pipeline_call (calls missing_reference_env) = false.
Proof.
  apply (exit_status_follows_reference_file missing_reference_env).
  left. reflexivity.
Defined.

(** With the reference file missing, the run is the header, the file check
    and its message. *)
Lemma missing_reference_run (env : Env) :
  FILE_EXISTS env (FILE_SOURCE_POINT_CLOUD env 0) = false ->
  fst (run env) = Done (-1) /\
  lastn 4 (calls env)
  = [E_MappFileOperation (FILE_SOURCE_POINT_CLOUD env 0) false;
     E_MosPrintf "\nThe footage needed to run this example is missing. You need \nto obtain and apply a separate specific update to have it.\n\n" [];
     E_MosPrintf "Press <Enter> to end.\n\n" [];
     E_MosGetch].
Proof. intros Hf. mil_run env. split; reflexivity. Qed.

(** ** The complete run *)

Lemma complete_run_returns_zero (env : Env) :
  inputs_ok env = true -> fst (run env) = Done 0.
Proof. intros H. mil_complete env H; reflexivity. Qed.

Lemma complete_run_result (env : Env) :
  inputs_ok env = true -> final_result env = Some (refinement_result env).
Proof. intros H. mil_complete env H; reflexivity. Qed.

(** A run whose registration ends with "not enough point pairs": the
    status is read, [M3dregMerge] is still called, with that very result,
    and the stitched container stays empty. *)
Lemma merge_called_on_failed_registration :
  has_valid_transform (res_status (sample_result M_NOT_ENOUGH_POINT_PAIRS))
  = false /\
  In (E_M3dregGetResult_STATUS M_NOT_ENOUGH_POINT_PAIRS)
     (calls (sample_env M_NOT_ENOUGH_POINT_PAIRS)) /\
  In (E_M3dregMerge (Some (sample_result M_NOT_ENOUGH_POINT_PAIRS))
        [MilPointCloud 0; MilPointCloud 1] (MilPointCloud 2))
     (calls (sample_env M_NOT_ENOUGH_POINT_PAIRS)) /\
  final_buf (sample_env M_NOT_ENOUGH_POINT_PAIRS) (MilPointCloud eStitched)
  = empty_container.
Proof.
  split; [reflexivity|split; [|split]].
  - apply (nth_error_In _ 104). vm_compute. reflexivity.
  - apply (nth_error_In _ 120). vm_compute. reflexivity.
  - vm_compute. reflexivity.
Qed.


(** The stitched cloud of a complete run: the merge of the two recoloured
    inputs when the registration gave a transform, the empty container it
    was allocated as otherwise. *)
Lemma complete_run_stitched (env : Env) :
  inputs_ok env = true ->
  final_buf env (MilPointCloud eStitched)
  = match Merge (refinement_result env)
            (recolored (source_cloud env) reference_color)
            (recolored (target_cloud env) target_color) with
    | Some c => c
    | None => empty_container
    end.
Proof.
  intros H. mil_complete env H.
  all: unfold recolored, uniform_reflectance, clear_reflectance,
    alloc_reflectance, free_reflectance, merged,
    inquire_range_SizeX, inquire_range_SizeY;
    cbn [COMPONENT_RANGE COMPONENT_REFLECTANCE option_map refl_pixels
         refl_SizeBand refl_SizeX refl_SizeY];
    rewrite ?map_const_repeat; reflexivity.
Qed.

(** ** The two boxes *)

(** Counterexample to C3. The first two crops of this run use the box of
    36.000000000000007 along Y and the last two the box of 40: the first
    box is not the wider one. *)
Lemma first_crop_box_is_the_narrower :
  crop_boxes (calls (sample_env M_RMS_ERROR_RELATIVE_THRESHOLD_REACHED))
  = [first_box; first_box; second_box; second_box] /\
  py (box_size first_box) = 36.000000000000007%float /\
  py (box_size second_box) = 40%float /\
  (py (box_size second_box) <? py (box_size first_box))%float = false.
Proof. repeat split; vm_compute; reflexivity. Qed.

(** C3, amended. In every run that gets past the file check and the display
    allocations, the two crops before the first registration use the box
    whose Y size is 200 * (0.9 * 0.20), the two crops after it use the box
    whose Y size is 200 * 0.20; the two boxes have the same X and Z sizes,
    and the first is the narrower one along Y. *)
Theorem crops_use_the_narrow_box_then_the_wide_box (env : Env) :
  inputs_ok env = true ->
  crop_boxes (before_first is_calculate (calls env)) = [first_box; first_box] /\
  crop_boxes (calls env) = [first_box; first_box; second_box; second_box] /\
  px (box_size first_box) = px (box_size second_box) /\
  pz (box_size first_box) = pz (box_size second_box) /\
  (py (box_size first_box) <? py (box_size second_box))%float = true.
Proof.
  intros H. mil_complete env H.
  all: repeat split; reflexivity.
Qed.

Lemma crops_use_the_narrow_box_then_the_wide_box_witness :
  crop_boxes (before_first is_calculate
                (calls (sample_env M_RMS_ERROR_RELATIVE_THRESHOLD_REACHED)))
  = [first_box; first_box] /\
  crop_boxes (calls (sample_env M_RMS_ERROR_RELATIVE_THRESHOLD_REACHED))
  = [first_box; first_box; second_box; second_box] /\
  px (box_size first_box) = px (box_size second_box) /\
  pz (box_size first_box) = pz (box_size second_box) /\
  (py (box_size first_box) <? py (box_size second_box))%float = true.
Proof.
  apply (crops_use_the_narrow_box_then_the_wide_box
           (sample_env M_RMS_ERROR_RELATIVE_THRESHOLD_REACHED)).
  reflexivity.
Defined.

(** ** The overlap of the second registration *)

(** Counterexample to C4. The reference cloud of this run has no point; the
    division is carried out, its result (not a number) is given to the
    [M_OVERLAP] control, both registrations are called and the run goes to
    its end. *)
Lemma division_by_zero_points_is_not_guarded :
  NUMBER_OF_POINTS_VALID (source_cloud empty_reference_env) = 0 /\
  overlap_controls (calls empty_reference_env) = [OVERLAP; nan] /\
  length (calculate_calls (calls empty_reference_env)) = 2%nat /\
  fst (run empty_reference_env) = Done 0.
Proof. repeat split; vm_compute; reflexivity. Qed.

(** C4, amended. In every run that gets past the file check and the display
    allocations, the program counts the valid points of the reference cloud
    and its points at a signed distance of at most zero from the second box
    (Y size 200 * 0.20); the [M_OVERLAP] control gets 95 and then the second
    count divided by the first, as [double], times 95; and both
    registrations are called whatever the counts are. *)
Theorem overlap_of_the_second_registration (env : Env) :
  inputs_ok env = true ->
  filter is_count_query (calls env)
  = [E_M3dimStat (MilPointCloud eSource);
     E_M3dimGetResult (NUMBER_OF_POINTS_VALID (source_cloud env));
     E_M3dmetStat (MilPointCloud eSource) second_box;
     E_M3dmetGetResult (STAT_NUMBER (source_cloud env) second_box)] /\
  overlap_controls (calls env)
  = [OVERLAP;
     (double_of_MIL_INT (STAT_NUMBER (source_cloud env) second_box)
      / double_of_MIL_INT (NUMBER_OF_POINTS_VALID (source_cloud env))
      * OVERLAP)%float] /\
  length (calculate_calls (calls env)) = 2%nat.
Proof.
  intros H. mil_complete env H.
  all: repeat split; reflexivity.
Qed.

Lemma overlap_of_the_second_registration_witness :
  filter is_count_query (calls empty_reference_env)
  = [E_M3dimStat (MilPointCloud eSource);
     E_M3dimGetResult
       (NUMBER_OF_POINTS_VALID (source_cloud empty_reference_env));
     E_M3dmetStat (MilPointCloud eSource) second_box;
     E_M3dmetGetResult
       (STAT_NUMBER (source_cloud empty_reference_env) second_box)] /\
  overlap_controls (calls empty_reference_env)
  = [OVERLAP;
     (double_of_MIL_INT
        (STAT_NUMBER (source_cloud empty_reference_env) second_box)
      / double_of_MIL_INT
          (NUMBER_OF_POINTS_VALID (source_cloud empty_reference_env))
      * OVERLAP)%float] /\
  length (calculate_calls (calls empty_reference_env)) = 2%nat.
Proof.
  apply (overlap_of_the_second_registration empty_reference_env).
  reflexivity.
Defined.

(** ** The two registrations *)

(** The two sample clouds have six points together; the second
    registration is given five, the points inside the second box. *)
Lemma second_registration_is_given_five_of_six_points :
  length (points_of (source_cloud counting_env)
          ++ points_of (target_cloud counting_env)) = 6%nat /\
  status_of (final_result counting_env) = M_OTHER_STATUS 5.
Proof. split; vm_compute; reflexivity. Qed.

(** C5, as the code has it. In every run that gets past the file check and
    the display allocations, both registrations are called on the array of
    cropped containers; the location set between them is the transform of
    the first registration, which ran on the crops by the first box; and
    the final result is that of a registration of the crops by the second
    box, not of the clouds as restored. *)
Theorem second_registration_runs_on_the_crops (env : Env) :
  inputs_ok env = true ->
  calculate_calls (calls env)
  = [(preregistration_context,
      [MilCroppedPointCloud 0; MilCroppedPointCloud 1]);
     (refinement_context env,
      [MilCroppedPointCloud 0; MilCroppedPointCloud 1])] /\
  filter is_set_location (calls env)
  = [E_M3dregSetLocation
       (Some (res_transform
                (registration env preregistration_context
                   [Crop (source_cloud env) first_box;
                    Crop (target_cloud env) first_box])))] /\
  ctx_PREREGISTRATION (refinement_context env)
  = Some (res_transform
            (registration env preregistration_context
               [Crop (source_cloud env) first_box;
                Crop (target_cloud env) first_box])) /\
  final_result env
  = Some (registration env (refinement_context env)
            [Crop (source_cloud env) second_box;
             Crop (target_cloud env) second_box]).
Proof.
  intros H. mil_complete env H.
  all: repeat split; reflexivity.
Qed.

Lemma second_registration_runs_on_the_crops_witness :
  calculate_calls (calls counting_env)
  = [(preregistration_context,
      [MilCroppedPointCloud 0; MilCroppedPointCloud 1]);
     (refinement_context counting_env,
      [MilCroppedPointCloud 0; MilCroppedPointCloud 1])] /\
  filter is_set_location (calls counting_env)
  = [E_M3dregSetLocation
       (Some (res_transform
                (registration counting_env preregistration_context
                   [Crop (source_cloud counting_env) first_box;
                    Crop (target_cloud counting_env) first_box])))] /\
  ctx_PREREGISTRATION (refinement_context counting_env)
  = Some (res_transform
            (registration counting_env preregistration_context
               [Crop (source_cloud counting_env) first_box;
                Crop (target_cloud counting_env) first_box])) /\
  final_result counting_env
  = Some (registration counting_env (refinement_context counting_env)
            [Crop (source_cloud counting_env) second_box;
             Crop (target_cloud counting_env) second_box]).
Proof.
  apply (second_registration_runs_on_the_crops counting_env).
  reflexivity.
Defined.

(** ** The registration context *)

(** Counterexample to C6. In this run the first registration sees an
    overlap of 95 and the second an overlap of 71.25; in the sequence of
    crops, overlap controls and registrations, the second overlap control
    comes after the first registration and the second pair of crops. *)
Lemma overlap_changes_between_the_registrations :
  map (fun c => ctx_OVERLAP (fst c))
      (calculate_calls
         (calls (sample_env M_RMS_ERROR_RELATIVE_THRESHOLD_REACHED)))
  = [Some 95%float; Some 71.25%float] /\
  map is_overlap_control
      (stage_view (calls (sample_env M_RMS_ERROR_RELATIVE_THRESHOLD_REACHED)))
  = [false; false; true; false; false; false; true; false].
Proof. split; vm_compute; reflexivity. Qed.

(** C6, amended. In every run that gets past the file check and the display
    allocations: the two step sizes, the subsampling switch, the iteration
    cap, the relative RMS threshold and the error metric are each set once,
    before the first crop, and never again; the overlap is set twice, to 95
    after the first pair of crops and before the first registration, and to
    the full-model overlap after the first registration and the second pair
    of crops and before the second registration; the location is set from
    the first result between the two registrations; and the context of the
    second registration differs from that of the first in the overlap and
    in that location. *)
Theorem controls_of_the_registration_context (env : Env) :
  inputs_ok env = true ->
  subsample_controls (before_first is_crop (calls env))
  = [M_STEP_SIZE_X DECIMATION_STEP; M_STEP_SIZE_Y DECIMATION_STEP] /\
  subsample_controls (calls env)
  = [M_STEP_SIZE_X DECIMATION_STEP; M_STEP_SIZE_Y DECIMATION_STEP] /\
  reg_controls (before_first is_crop (calls env))
  = [M_SUBSAMPLE true; M_MAX_ITERATIONS MAX_ITERATIONS;
     M_RMS_ERROR_RELATIVE_THRESHOLD RMS_ERROR_RELATIVE_THRESHOLD;
     M_ERROR_MINIMIZATION_METRIC ERROR_MINIMIZATION_METRIC] /\
  reg_controls (calls env)
  = [M_SUBSAMPLE true; M_MAX_ITERATIONS MAX_ITERATIONS;
     M_RMS_ERROR_RELATIVE_THRESHOLD RMS_ERROR_RELATIVE_THRESHOLD;
     M_ERROR_MINIMIZATION_METRIC ERROR_MINIMIZATION_METRIC;
     M_OVERLAP OVERLAP; M_OVERLAP (FullModelOverlap env)] /\
  map fst (calculate_calls (calls env))
  = [apply_RegControl (M_OVERLAP OVERLAP) configured_context;
     set_PREREGISTRATION
       (Some (res_transform (preregistration_result env)))
       (apply_RegControl (M_OVERLAP (FullModelOverlap env))
          configured_context)] /\
  stage_view (calls env)
  = [E_M3dimCrop (MilPointCloud 0) (MilCroppedPointCloud 0) first_box;
     E_M3dimCrop (MilPointCloud 1) (MilCroppedPointCloud 1) first_box;
     E_M3dregControl (M_OVERLAP OVERLAP);
     E_M3dregCalculate preregistration_context
       [MilCroppedPointCloud 0; MilCroppedPointCloud 1];
     E_M3dimCrop (MilPointCloud 0) (MilCroppedPointCloud 0) second_box;
     E_M3dimCrop (MilPointCloud 1) (MilCroppedPointCloud 1) second_box;
     E_M3dregControl (M_OVERLAP (FullModelOverlap env));
     E_M3dregCalculate (refinement_context env)
       [MilCroppedPointCloud 0; MilCroppedPointCloud 1]] /\
  filter (fun e => is_set_location e || is_calculate e) (calls env)
  = [E_M3dregCalculate preregistration_context
       [MilCroppedPointCloud 0; MilCroppedPointCloud 1];
     E_M3dregSetLocation
       (Some (res_transform (preregistration_result env)));
     E_M3dregCalculate (refinement_context env)
       [MilCroppedPointCloud 0; MilCroppedPointCloud 1]].
Proof.
  intros H. mil_complete env H.
  all: repeat split; reflexivity.
Qed.

Lemma controls_of_the_registration_context_witness :
  subsample_controls (before_first is_crop (calls (sample_env M_MAX_ITERATIONS_REACHED)))
  = [M_STEP_SIZE_X DECIMATION_STEP; M_STEP_SIZE_Y DECIMATION_STEP] /\
  subsample_controls (calls (sample_env M_MAX_ITERATIONS_REACHED))
  = [M_STEP_SIZE_X DECIMATION_STEP; M_STEP_SIZE_Y DECIMATION_STEP] /\
  reg_controls (before_first is_crop (calls (sample_env M_MAX_ITERATIONS_REACHED)))
  = [M_SUBSAMPLE true; M_MAX_ITERATIONS MAX_ITERATIONS;
     M_RMS_ERROR_RELATIVE_THRESHOLD RMS_ERROR_RELATIVE_THRESHOLD;
     M_ERROR_MINIMIZATION_METRIC ERROR_MINIMIZATION_METRIC] /\
  reg_controls (calls (sample_env M_MAX_ITERATIONS_REACHED))
  = [M_SUBSAMPLE true; M_MAX_ITERATIONS MAX_ITERATIONS;
     M_RMS_ERROR_RELATIVE_THRESHOLD RMS_ERROR_RELATIVE_THRESHOLD;
     M_ERROR_MINIMIZATION_METRIC ERROR_MINIMIZATION_METRIC;
     M_OVERLAP OVERLAP; M_OVERLAP (FullModelOverlap (sample_env M_MAX_ITERATIONS_REACHED))] /\
  map fst (calculate_calls (calls (sample_env M_MAX_ITERATIONS_REACHED)))
  = [apply_RegControl (M_OVERLAP OVERLAP) configured_context;
     set_PREREGISTRATION
       (Some (res_transform (preregistration_result (sample_env M_MAX_ITERATIONS_REACHED))))
       (apply_RegControl (M_OVERLAP (FullModelOverlap (sample_env M_MAX_ITERATIONS_REACHED)))
          configured_context)] /\
  stage_view (calls (sample_env M_MAX_ITERATIONS_REACHED))
  = [E_M3dimCrop (MilPointCloud 0) (MilCroppedPointCloud 0) first_box;
     E_M3dimCrop (MilPointCloud 1) (MilCroppedPointCloud 1) first_box;
     E_M3dregControl (M_OVERLAP OVERLAP);
     E_M3dregCalculate preregistration_context
       [MilCroppedPointCloud 0; MilCroppedPointCloud 1];
     E_M3dimCrop (MilPointCloud 0) (MilCroppedPointCloud 0) second_box;
     E_M3dimCrop (MilPointCloud 1) (MilCroppedPointCloud 1) second_box;
     E_M3dregControl (M_OVERLAP (FullModelOverlap (sample_env M_MAX_ITERATIONS_REACHED)));
     E_M3dregCalculate (refinement_context (sample_env M_MAX_ITERATIONS_REACHED))
       [MilCroppedPointCloud 0; MilCroppedPointCloud 1]] /\
  filter (fun e => is_set_location e || is_calculate e) (calls (sample_env M_MAX_ITERATIONS_REACHED))
  = [E_M3dregCalculate preregistration_context
       [MilCroppedPointCloud 0; MilCroppedPointCloud 1];
     E_M3dregSetLocation
       (Some (res_transform (preregistration_result (sample_env M_MAX_ITERATIONS_REACHED))));
     E_M3dregCalculate (refinement_context (sample_env M_MAX_ITERATIONS_REACHED))
       [MilCroppedPointCloud 0; MilCroppedPointCloud 1]].
Proof.
  apply (controls_of_the_registration_context
           (sample_env M_MAX_ITERATIONS_REACHED)).
  reflexivity.
Defined.

(** The six controls that are set once have the same value in both
    contexts. *)
Lemma contexts_agree_outside_overlap (env : Env) :
  ctx_STEP_SIZE_X (refinement_context env)
  = ctx_STEP_SIZE_X preregistration_context /\
  ctx_STEP_SIZE_Y (refinement_context env)
  = ctx_STEP_SIZE_Y preregistration_context /\
  ctx_SUBSAMPLE (refinement_context env)
  = ctx_SUBSAMPLE preregistration_context /\
  ctx_MAX_ITERATIONS (refinement_context env)
  = ctx_MAX_ITERATIONS preregistration_context /\
  ctx_RMS_ERROR_RELATIVE_THRESHOLD (refinement_context env)
  = ctx_RMS_ERROR_RELATIVE_THRESHOLD preregistration_context /\
  ctx_ERROR_MINIMIZATION_METRIC (refinement_context env)
  = ctx_ERROR_MINIMIZATION_METRIC preregistration_context.
Proof. repeat split; reflexivity. Qed.

(** ** Stitching *)

(** C10. In every run that gets past the file check and the display
    allocations, the fourteen calls just before the merge are, for the
    reference cloud and then for the target cloud: display update off,
    free of the reflectance component, the two size inquiries on the range
    component, allocation of a three-band reflectance component of that
    size, its clear with the cloud's colour, display update on.  At the end
    each of the two clouds has the range component it was restored with and
    a reflectance component of one colour, RGB(135,165,235) for the
    reference and RGB(75,125,215) for the target; and the colours of the
    stitched cloud, when the merge gives one, are those of the reference
    followed by those of the target. *)
Theorem clouds_are_recolored_before_the_merge (env : Env) :
  inputs_ok env = true ->
  lastn 14 (before_first is_merge (calls env))
  = recolor_calls (display_driver env 0) 0 (source_cloud env) reference_color
    ++ recolor_calls (display_driver env 1) 1 (target_cloud env) target_color /\
  final_buf env (MilPointCloud eSource)
  = recolored (source_cloud env) reference_color /\
  final_buf env (MilPointCloud eTarget)
  = recolored (target_cloud env) target_color /\
  COMPONENT_RANGE (final_buf env (MilPointCloud eSource))
  = COMPONENT_RANGE (source_cloud env) /\
  COMPONENT_RANGE (final_buf env (MilPointCloud eTarget))
  = COMPONENT_RANGE (target_cloud env) /\
  colors_of (final_buf env (MilPointCloud eStitched))
  = if has_valid_transform (res_status (refinement_result env))
    then repeat reference_color
           (Z.to_nat (inquire_range_SizeX (source_cloud env)
                      * inquire_range_SizeY (source_cloud env)))
         ++ repeat target_color
           (Z.to_nat (inquire_range_SizeX (target_cloud env)
                      * inquire_range_SizeY (target_cloud env)))
    else [].
Proof.
  intros H. mil_complete env H.
  all: unfold recolored, uniform_reflectance, clear_reflectance,
    alloc_reflectance, free_reflectance, merged, Merge, colors_of,
    inquire_range_SizeX, inquire_range_SizeY, empty_container;
    mil_status env;
    cbn [COMPONENT_RANGE COMPONENT_REFLECTANCE option_map refl_pixels
         refl_SizeBand refl_SizeX refl_SizeY res_status
         has_valid_transform];
    rewrite ?map_const_repeat.
  all: repeat split; reflexivity.
Qed.

Lemma clouds_are_recolored_before_the_merge_witness :
  lastn 14 (before_first is_merge
              (calls (sample_env M_RMS_ERROR_THRESHOLD_REACHED)))
  = recolor_calls (display_driver (sample_env M_RMS_ERROR_THRESHOLD_REACHED) 0)
      0 (source_cloud (sample_env M_RMS_ERROR_THRESHOLD_REACHED))
      reference_color
    ++ recolor_calls
         (display_driver (sample_env M_RMS_ERROR_THRESHOLD_REACHED) 1)
         1 (target_cloud (sample_env M_RMS_ERROR_THRESHOLD_REACHED))
         target_color /\
  final_buf (sample_env M_RMS_ERROR_THRESHOLD_REACHED) (MilPointCloud eSource)
  = recolored (source_cloud (sample_env M_RMS_ERROR_THRESHOLD_REACHED))
      reference_color /\
  final_buf (sample_env M_RMS_ERROR_THRESHOLD_REACHED) (MilPointCloud eTarget)
  = recolored (target_cloud (sample_env M_RMS_ERROR_THRESHOLD_REACHED))
      target_color /\
  COMPONENT_RANGE
    (final_buf (sample_env M_RMS_ERROR_THRESHOLD_REACHED)
       (MilPointCloud eSource))
  = COMPONENT_RANGE (source_cloud (sample_env M_RMS_ERROR_THRESHOLD_REACHED)) /\
  COMPONENT_RANGE
    (final_buf (sample_env M_RMS_ERROR_THRESHOLD_REACHED)
       (MilPointCloud eTarget))
  = COMPONENT_RANGE (target_cloud (sample_env M_RMS_ERROR_THRESHOLD_REACHED)) /\
  colors_of
    (final_buf (sample_env M_RMS_ERROR_THRESHOLD_REACHED)
       (MilPointCloud eStitched))
  = if has_valid_transform
         (res_status
            (refinement_result (sample_env M_RMS_ERROR_THRESHOLD_REACHED)))
    then repeat reference_color
           (Z.to_nat
              (inquire_range_SizeX
                 (source_cloud (sample_env M_RMS_ERROR_THRESHOLD_REACHED))
               * inquire_range_SizeY
                   (source_cloud (sample_env M_RMS_ERROR_THRESHOLD_REACHED))))
         ++ repeat target_color
           (Z.to_nat
              (inquire_range_SizeX
                 (target_cloud (sample_env M_RMS_ERROR_THRESHOLD_REACHED))
               * inquire_range_SizeY
                   (target_cloud (sample_env M_RMS_ERROR_THRESHOLD_REACHED))))
    else [].
Proof.
  apply (clouds_are_recolored_before_the_merge
           (sample_env M_RMS_ERROR_THRESHOLD_REACHED)).
  reflexivity.
Defined.

(** The sample run: the reference file came with four pixels of scan
    reflectance; the stitched cloud has six points, four in the colour of
    the reference and two in the colour of the target. *)
Example sample_stitched_colors :
  colors_of (source_cloud (sample_env M_RMS_ERROR_THRESHOLD_REACHED))
  = [M_RGB888 10 10 10; M_RGB888 20 20 20;
     M_RGB888 30 30 30; M_RGB888 40 40 40] /\
  length (points_of (final_buf (sample_env M_RMS_ERROR_THRESHOLD_REACHED)
                       (MilPointCloud eStitched))) = 6%nat /\
  colors_of (final_buf (sample_env M_RMS_ERROR_THRESHOLD_REACHED)
               (MilPointCloud eStitched))
  = repeat reference_color 4 ++ repeat target_color 2.
Proof. repeat split; vm_compute; reflexivity. Qed.

(** * Further properties of the program *)

(** ** The two utility functions, from any state *)

(** X1. [CheckForRequiredMILFile], from any state, returns whether the file
    exists and never ends the process; it issues the existence query, and
    prints the two messages and waits for a key only when the file is
    missing; nothing but the list of calls changes. *)
Theorem CheckForRequiredMILFile_reports_presence
  (env : Env) (FileName : string) (w : World) :
  CheckForRequiredMILFile env FileName w
  = (Done (FILE_EXISTS env FileName),
     add_calls
       (E_MappFileOperation FileName (FILE_EXISTS env FileName)
        :: (if FILE_EXISTS env FileName then []
            else [E_MosPrintf missing_footage_message [];
                  E_MosPrintf "Press <Enter> to end.\n\n" [];
                  E_MosGetch]))
       w).
Proof.
  unfold CheckForRequiredMILFile, MappFileOperation_FILE_EXISTS, bind, call,
    ret, MosPrintf, MosGetch.
  destruct (FILE_EXISTS env FileName); reflexivity.
Qed.

(** X2. When [Alloc3dDisplayId] returns, from any state, the identifier is
    not [M_NULL]: it is the one the driver gave, and the state has grown by
    exactly three calls, error printing off, the allocation, error printing
    on. *)
Theorem Alloc3dDisplayId_never_returns_null
  (env : Env) (w w' : World) (id : MIL_ID) :
  Alloc3dDisplayId env w = (Done id, w') ->
  id <> M_NULL /\
  id = display_driver env (w_displays w) /\
  w' = next_display
         (add_calls [E_MappControl_ERROR false; E_M3ddispAlloc id;
                     E_MappControl_ERROR true] w).
Proof.
  unfold Alloc3dDisplayId, M3ddispAlloc, MappControl_ERROR, bind, call, ret,
    read, update, exit, MosPrintf, MosGetch.
  cbn [w_displays add_call next_display].
  destruct (display_driver env (w_displays w) =? M_NULL) eqn:E.
  - discriminate.
  - intros H. injection H as <- <-.
    apply Z.eqb_neq in E. split; [exact E|]. split; reflexivity.
Qed.

Lemma Alloc3dDisplayId_never_returns_null_witness :
  100 <> M_NULL /\
  100 = display_driver (sample_env M_NOT_INITIALIZED) (w_displays initial_world) /\
  snd (Alloc3dDisplayId (sample_env M_NOT_INITIALIZED) initial_world)
  = next_display
      (add_calls [E_MappControl_ERROR false; E_M3ddispAlloc 100;
                  E_MappControl_ERROR true] initial_world).
Proof.
  apply (Alloc3dDisplayId_never_returns_null
           (sample_env M_NOT_INITIALIZED) initial_world).
  reflexivity.
Defined.

(** ** Every run *)

(** X3. The three ways a run ends: [MosMain] returns -1 exactly when the
    reference file is missing; the process ends by [exit(0)] exactly when
    the file is present and one of the three display allocations returns
    [M_NULL], which is also exactly when a failed allocation is among the
    calls; otherwise [MosMain] returns 0, and these are exactly the runs in
    which [M3dregMerge] is called. *)
Theorem outcome_of_every_run (env : Env) :
  fst (run env)
  = (if FILE_EXISTS env (FILE_SOURCE_POINT_CLOUD env 0)
     then if inputs_ok env then Done 0 else Exit 0
     else Done (-1)) /\
  display_alloc_failed (calls env)
  = FILE_EXISTS env (FILE_SOURCE_POINT_CLOUD env 0) && negb (inputs_ok env) /\
  existsb is_merge (calls env) = inputs_ok env.
Proof.
  unfold inputs_ok.
  mil_every_run env.
  all: mil_ids; repeat split; reflexivity.
Qed.

(** X4. In every run only prints and [MappAlloc] precede the file query;
    the existence of a file is asked once, for the reference file only; and
    when it is present both files are restored, the reference into the
    source container and then the target file, unchecked, into the target
    container. *)
Theorem file_is_queried_once_and_both_are_restored (env : Env) :
  filter (fun e => negb (is_print e)) (before_first is_file_query (calls env))
  = [E_MappAlloc] /\
  filter is_file_query (calls env)
  = [E_MappFileOperation (FILE_SOURCE_POINT_CLOUD env 0)
       (FILE_EXISTS env (FILE_SOURCE_POINT_CLOUD env 0))] /\
  filter is_restore (calls env)
  = if FILE_EXISTS env (FILE_SOURCE_POINT_CLOUD env 0)
    then [E_MbufRestore (FILE_SOURCE_POINT_CLOUD env 0) (MilPointCloud eSource);
          E_MbufRestore (FILE_SOURCE_POINT_CLOUD env 1) (MilPointCloud eTarget)]
    else [].
Proof.
  mil_every_run env.
  all: repeat split; reflexivity.
Qed.

(** X6. The displays and the registration objects are released only at the
    end of a complete run, where the displays freed are the displays
    allocated, in the same order, and the context is freed before the
    result; a run that ends early frees nothing, whatever it has allocated.
    No run allocates more than three displays. *)
Theorem releases_match_allocations_in_complete_runs_only (env : Env) :
  display_frees (calls env)
  = (if inputs_ok env then display_allocs (calls env) else []) /\
  registration_frees (calls env)
  = (if inputs_ok env then [RegistrationContext; RegistrationResult] else []) /\
  (length (display_allocs (calls env)) <= 3)%nat.
Proof.
  unfold inputs_ok.
  mil_every_run env.
  all: repeat split; try reflexivity; repeat constructor.
Qed.


(** X8. In every run the printing of SDK errors is turned off only just
    before a display allocation and is turned on again just after it, also
    when the allocation fails and the process exits. *)
Theorem error_printing_is_off_only_around_allocations (env : Env) :
  allocs_are_bracketed (calls env) = true.
Proof.
  mil_every_run env.
  all: reflexivity.
Qed.

(** The check does reject a bare allocation and a switch left off. *)
Example allocs_are_bracketed_rejects :
  allocs_are_bracketed [E_MosGetch; E_M3ddispAlloc 5] = false /\
  allocs_are_bracketed
    [E_MappControl_ERROR false; E_M3ddispAlloc 5; E_MosGetch] = false.
Proof. split; reflexivity. Qed.

(** X9. In every run each call uses only objects that are alive: a
    container after its allocation or restoration, the box after its
    definition, the registration context and result between their
    allocation and their release, the result's content after a
    registration; and at the end no registration object is left
    allocated. *)
Theorem objects_are_used_while_alive (env : Env) :
  exists s,
    liveness_after nothing_live (calls env) = Some s /\
    context_live s = false /\ result_live s = false.
Proof.
  mil_every_run env.
  all: eexists; split; [reflexivity|split; reflexivity].
Qed.

(** The check does reject a crop into a container that was not allocated
    and a registration after the release of the context. *)
Example liveness_after_rejects :
  liveness_after nothing_live
    [E_MbufRestore "a" (MilPointCloud 0); E_M3dgeoBox first_box;
     E_M3dimCrop (MilPointCloud 0) (MilCroppedPointCloud 0) first_box]
  = None /\
  liveness_after nothing_live
    [E_M3dregAlloc; E_M3dregAllocResult; E_M3dregFree RegistrationContext;
     E_M3dregCalculate fresh_context []]
  = None.
Proof. split; reflexivity. Qed.

(** ** The complete run, continued *)

(** X5. After the merge a complete run is the same for every registration
    status, the two failures included: it selects the stitched container in
    the third display, draws there a box with the corners of the first box,
    prints that the clouds have been stitched, waits for a key, and releases
    the context, the result and the three displays in that order. *)
Theorem end_of_a_complete_run (env : Env) :
  inputs_ok env = true ->
  after_first is_merge (calls env)
  = [E_M3ddispSelect (display_driver env 2) (MilPointCloud eStitched);
     E_M3ddispInquire (display_driver env 2);
     E_M3dgraBox (display_driver env 2)
       (box_low_corner first_box) (box_high_corner first_box);
     E_M3dgraControl (display_driver env 2) M_COLOR_WHITE;
     E_M3dgraControl (display_driver env 2) M_APPEARANCE_WIREFRAME;
     E_MosPrintf stitched_message [];
     E_MosPrintf "Press <Enter> to end.\n" [];
     E_MosGetch;
     E_M3dregFree RegistrationContext;
     E_M3dregFree RegistrationResult;
     E_M3ddispFree (display_driver env 0);
     E_M3ddispFree (display_driver env 1);
     E_M3ddispFree (display_driver env 2)].
Proof.
  intros H. mil_complete env H.
  all: reflexivity.
Qed.

Lemma end_of_a_complete_run_witness :
  after_first is_merge (calls (sample_env M_NOT_ENOUGH_POINT_PAIRS))
  = [E_M3ddispSelect (display_driver (sample_env M_NOT_ENOUGH_POINT_PAIRS) 2)
       (MilPointCloud eStitched);
     E_M3ddispInquire (display_driver (sample_env M_NOT_ENOUGH_POINT_PAIRS) 2);
     E_M3dgraBox (display_driver (sample_env M_NOT_ENOUGH_POINT_PAIRS) 2)
       (box_low_corner first_box) (box_high_corner first_box);
     E_M3dgraControl (display_driver (sample_env M_NOT_ENOUGH_POINT_PAIRS) 2)
       M_COLOR_WHITE;
     E_M3dgraControl (display_driver (sample_env M_NOT_ENOUGH_POINT_PAIRS) 2)
       M_APPEARANCE_WIREFRAME;
     E_MosPrintf stitched_message [];
     E_MosPrintf "Press <Enter> to end.\n" [];
     E_MosGetch;
     E_M3dregFree RegistrationContext;
     E_M3dregFree RegistrationResult;
     E_M3ddispFree (display_driver (sample_env M_NOT_ENOUGH_POINT_PAIRS) 0);
     E_M3ddispFree (display_driver (sample_env M_NOT_ENOUGH_POINT_PAIRS) 1);
     E_M3ddispFree (display_driver (sample_env M_NOT_ENOUGH_POINT_PAIRS) 2)].
Proof.
  apply (end_of_a_complete_run (sample_env M_NOT_ENOUGH_POINT_PAIRS)).
  reflexivity.
Defined.

(** X10. In a complete run the RMS error is read from the result exactly
    when the status is one of the two RMS statuses, and it is then the
    error of the second registration; for every status exactly one message
    is printed between the status query and the recolouring. *)
Theorem rms_error_is_read_for_rms_statuses_only (env : Env) :
  inputs_ok env = true ->
  filter is_rms_query (calls env)
  = (if is_rms_status (res_status (refinement_result env))
     then [E_M3dregGetResult_RMS_ERROR (res_RMS_ERROR (refinement_result env))]
     else []) /\
  length (filter is_print
            (calls_between is_status_query is_update_control (calls env)))
  = 1%nat.
Proof.
  intros H. mil_complete env H; mil_status env.
  all: split; reflexivity.
Qed.

Lemma rms_error_is_read_for_rms_statuses_only_witness :
  filter is_rms_query (calls (sample_env M_RMS_ERROR_THRESHOLD_REACHED))
  = (if is_rms_status
          (res_status
             (refinement_result (sample_env M_RMS_ERROR_THRESHOLD_REACHED)))
     then [E_M3dregGetResult_RMS_ERROR
             (res_RMS_ERROR
                (refinement_result
                   (sample_env M_RMS_ERROR_THRESHOLD_REACHED)))]
     else []) /\
  length (filter is_print
            (calls_between is_status_query is_update_control
               (calls (sample_env M_RMS_ERROR_THRESHOLD_REACHED))))
  = 1%nat.
Proof.
  apply (rms_error_is_read_for_rms_statuses_only
           (sample_env M_RMS_ERROR_THRESHOLD_REACHED)).
  reflexivity.
Defined.

(** X11. In a complete run the box drawn in each of the three displays is
    the first box (the one of [BOX_USED_OVERLAP]): through the box object in
    the two input displays, by its two corners in the third; the box object
    itself ends as the second box. *)
Theorem drawn_box_is_the_first_box (env : Env) :
  inputs_ok env = true ->
  filter is_box_drawing (calls env)
  = [E_M3dgeoDraw3d (display_driver env 0) first_box;
     E_M3dgeoDraw3d (display_driver env 1) first_box;
     E_M3dgraBox (display_driver env 2)
       (box_low_corner first_box) (box_high_corner first_box)] /\
  w_MilBox (snd (run env)) = second_box.
Proof.
  intros H. mil_complete env H.
  all: split; reflexivity.
Qed.

Lemma drawn_box_is_the_first_box_witness :
  filter is_box_drawing (calls (sample_env M_MAX_ITERATIONS_REACHED))
  = [E_M3dgeoDraw3d (display_driver (sample_env M_MAX_ITERATIONS_REACHED) 0)
       first_box;
     E_M3dgeoDraw3d (display_driver (sample_env M_MAX_ITERATIONS_REACHED) 1)
       first_box;
     E_M3dgraBox (display_driver (sample_env M_MAX_ITERATIONS_REACHED) 2)
       (box_low_corner first_box) (box_high_corner first_box)] /\
  w_MilBox (snd (run (sample_env M_MAX_ITERATIONS_REACHED))) = second_box.
Proof.
  apply (drawn_box_is_the_first_box (sample_env M_MAX_ITERATIONS_REACHED)).
  reflexivity.
Defined.

(** X12. In a complete run the timer is reset after the first two crops and
    read after the second registration: what it measures is, in this
    order, the first registration, the second two crops and the second
    registration; the merge comes after the reading. *)
Theorem timer_spans_both_registrations (env : Env) :
  inputs_ok env = true ->
  map is_calculate
    (filter is_processing_call
       (calls_between is_timer_reset is_timer_read (calls env)))
  = [true; false; false; true] /\
  map is_crop
    (filter is_processing_call (before_first is_timer_reset (calls env)))
  = [true; true] /\
  map is_merge
    (filter is_processing_call (after_first is_timer_read (calls env)))
  = [true].
Proof.
  intros H. mil_complete env H.
  all: repeat split; reflexivity.
Qed.

Lemma timer_spans_both_registrations_witness :
  map is_calculate
    (filter is_processing_call
       (calls_between is_timer_reset is_timer_read
          (calls (sample_env M_MAX_ITERATIONS_REACHED))))
  = [true; false; false; true] /\
  map is_crop
    (filter is_processing_call
       (before_first is_timer_reset
          (calls (sample_env M_MAX_ITERATIONS_REACHED))))
  = [true; true] /\
  map is_merge
    (filter is_processing_call
       (after_first is_timer_read
          (calls (sample_env M_MAX_ITERATIONS_REACHED))))
  = [true].
Proof.
  apply (timer_spans_both_registrations (sample_env M_MAX_ITERATIONS_REACHED)).
  reflexivity.
Defined.

(** ** One colour per point *)

Lemma recolored_has_a_color_per_point (c : Container) (col : Color) :
  range_fits c = true ->
  length (colors_of (recolored c col)) = length (points_of c).
Proof.
  unfold range_fits, recolored, uniform_reflectance, colors_of, points_of,
    inquire_range_SizeX, inquire_range_SizeY.
  cbn [COMPONENT_RANGE COMPONENT_REFLECTANCE refl_pixels].
  destruct (COMPONENT_RANGE c) as [r|]; [|discriminate].
  rewrite !andb_true_iff, Z.eqb_eq. intros [_ E].
  rewrite repeat_length, E. apply Nat2Z.id.
Qed.

Lemma points_of_recolored (c : Container) (col : Color) :
  points_of (recolored c col) = points_of c.
Proof. reflexivity. Qed.

Lemma complete_run_inputs (env : Env) :
  inputs_ok env = true ->
  final_buf env (MilPointCloud eSource)
  = recolored (source_cloud env) reference_color /\
  final_buf env (MilPointCloud eTarget)
  = recolored (target_cloud env) target_color.
Proof.
  intros H. mil_complete env H.
  all: unfold recolored, uniform_reflectance, clear_reflectance,
    alloc_reflectance, free_reflectance,
    inquire_range_SizeX, inquire_range_SizeY;
    cbn [COMPONENT_RANGE COMPONENT_REFLECTANCE option_map refl_pixels
         refl_SizeBand refl_SizeX refl_SizeY];
    rewrite ?map_const_repeat; split; reflexivity.
Qed.

(** X13. In a complete run, when the sizes of the range component of a
    restored cloud fit its points (sizes not negative, their product the
    number of points), the reflectance component the loop gives the cloud
    has exactly one pixel per point, and the points are those restored. *)
Theorem every_point_gets_one_color (env : Env) :
  inputs_ok env = true ->
  range_fits (source_cloud env) = true ->
  range_fits (target_cloud env) = true ->
  length (colors_of (final_buf env (MilPointCloud eSource)))
  = length (points_of (source_cloud env)) /\
  points_of (final_buf env (MilPointCloud eSource))
  = points_of (source_cloud env) /\
  length (colors_of (final_buf env (MilPointCloud eTarget)))
  = length (points_of (target_cloud env)) /\
  points_of (final_buf env (MilPointCloud eTarget))
  = points_of (target_cloud env).
Proof.
  intros H Hs Ht.
  destruct (complete_run_inputs env H) as [-> ->].
  rewrite !points_of_recolored, !recolored_has_a_color_per_point by assumption.
  repeat split; reflexivity.
Qed.

Lemma every_point_gets_one_color_witness :
  length (colors_of (final_buf (sample_env M_RMS_ERROR_THRESHOLD_REACHED)
                       (MilPointCloud eSource)))
  = length (points_of (source_cloud (sample_env M_RMS_ERROR_THRESHOLD_REACHED))) /\
  points_of (final_buf (sample_env M_RMS_ERROR_THRESHOLD_REACHED)
               (MilPointCloud eSource))
  = points_of (source_cloud (sample_env M_RMS_ERROR_THRESHOLD_REACHED)) /\
  length (colors_of (final_buf (sample_env M_RMS_ERROR_THRESHOLD_REACHED)
                       (MilPointCloud eTarget)))
  = length (points_of (target_cloud (sample_env M_RMS_ERROR_THRESHOLD_REACHED))) /\
  points_of (final_buf (sample_env M_RMS_ERROR_THRESHOLD_REACHED)
               (MilPointCloud eTarget))
  = points_of (target_cloud (sample_env M_RMS_ERROR_THRESHOLD_REACHED)).
Proof.
  apply (every_point_gets_one_color (sample_env M_RMS_ERROR_THRESHOLD_REACHED));
    reflexivity.
Defined.
